(** * The gold-layer fact table: [build_fact_transactions]

    A shallow embedding of [data_warehouse/etl/gold/fact_transactions.py].
    The pandas calls the function makes are modelled in [Module Pandas];
    the frames it handles are typed by the columns the code reads and
    writes; the function itself runs in a state-and-exception monad over
    the objects it shares with its caller: the four dimension frames it is
    handed (pandas frames are passed by reference, so an assignment to one
    of their columns is seen by the caller), the file at [output_path], and
    the log. *)

From Stdlib Require Import ZArith List String Bool Lia.
From Stdlib Require Import Floats.PrimFloat.
Import ListNotations.

#[local] Set Warnings "-inexact-float".
#[local] Open Scope string_scope.
#[local] Open Scope Z_scope.

(** ** Keys that can be compared: the values a merge or a groupby matches on *)

Class Key (K : Type) : Type := {
  key_eqb : K -> K -> bool;
  key_eqb_spec : forall x y : K, reflect (x = y) (key_eqb x y)
}.

#[export] Instance Key_Z : Key Z :=
  {| key_eqb := Z.eqb; key_eqb_spec := Z.eqb_spec |}.

#[export] Instance Key_string : Key string :=
  {| key_eqb := String.eqb; key_eqb_spec := String.eqb_spec |}.

(** ** The pandas operations the pipeline calls *)

Module Pandas.

(** A pandas [Timestamp] is a count of nanoseconds since 1970-01-01. *)
Definition ns_per_day : Z := 86400 * 1000000000.

(** Days from 1970-01-01 to the civil date y-m-d (proleptic Gregorian). *)
Definition days_from_civil (y m d : Z) : Z :=
  let y' := if m <=? 2 then y - 1 else y in
  let era := y' / 400 in
  let yoe := y' - era * 400 in
  let mp := (m + 9) mod 12 in
  let doy := (153 * mp + 2) / 5 + d - 1 in
  let doe := yoe * 365 + yoe / 4 - yoe / 100 + doy in
  era * 146097 + doe - 719468.

(** A cell of a date column: a [datetime.date] object (what [.dt.date]
    yields, and what a dimension builder may deliver), a [Timestamp], or
    the null value. Dates kept as text are outside the model. *)
Inductive DateCell : Type :=
| date_obj (day : Z)
| stamp (ns : Z)
| NaT.

Definition DateCell_eqb (a b : DateCell) : bool :=
  match a, b with
  | date_obj x, date_obj y => x =? y
  | stamp x, stamp y => x =? y
  | NaT, NaT => true
  | _, _ => false
  end.

(** [pd.Timestamp("y-m-d")] *)
Definition Timestamp (y m d : Z) : DateCell :=
  stamp (days_from_civil y m d * ns_per_day).

(** [pd.to_datetime], cell by cell: a date becomes its midnight, a
    Timestamp stays, null becomes NaT. *)
Definition to_datetime (c : DateCell) : DateCell :=
  match c with
  | date_obj day => stamp (day * ns_per_day)
  | stamp ns => stamp ns
  | NaT => NaT
  end.

(** [.dt.date] on a datetime column: the calendar day of the instant. *)
Definition dt_date (c : DateCell) : DateCell :=
  match c with
  | stamp ns => date_obj (ns / ns_per_day)
  | date_obj day => date_obj day
  | NaT => NaT
  end.

(** [.fillna(v)] *)
Definition fillna (v c : DateCell) : DateCell :=
  match c with
  | NaT => v
  | _ => c
  end.

(** [a <= b] between datetime columns; a comparison with NaT is False. *)
Definition le (a b : DateCell) : bool :=
  match a, b with
  | stamp x, stamp y => x <=? y
  | _, _ => false
  end.

(** [a >= b] *)
Definition ge (a b : DateCell) : bool := le b a.

(** [(col > v).astype(int)] on a float column: a comparison with NaN is
    False. *)
Definition gt_astype_int (a v : float) : Z :=
  Z.b2z (PrimFloat.ltb v a).

(** [.isnull().sum()] *)
Definition isnull {A : Type} (c : option A) : bool :=
  match c with
  | None => true
  | Some _ => false
  end.

Definition isnull_sum {A : Type} (col : list (option A)) : nat :=
  List.length (filter isnull col).

(** The exceptions the function can raise. *)
Inductive Exn : Type :=
| AssertionError (msg : string)
| MergeError (msg : string).

Section Merge.
Context {L R K : Type} `{Key K}.
Variable left_on : L -> K.
Variable right_on : R -> K.

(** [left.merge(right, how="left")]: every left row, in order, once per
    right row with the same key (in the right frame's order), and once
    with nulls on the right when no right row has that key. *)
Definition merge_left (left : list L) (right : list R) : list (L * option R) :=
  flat_map
    (fun l =>
       match filter (fun r => key_eqb (left_on l) (right_on r)) right with
       | [] => [(l, None)]
       | rs => map (fun r => (l, Some r)) rs
       end)
    left.

(** [Index.is_unique] on the right frame's merge keys. *)
Fixpoint is_unique (keys : list K) : bool :=
  match keys with
  | [] => true
  | k :: ks => negb (existsb (key_eqb k) ks) && is_unique ks
  end.

(** [left.merge(right, how="left", validate="many_to_one")]: the check is
    made on the right frame's keys before anything is joined. *)
Definition merge_left_many_to_one (left : list L) (right : list R)
  : Exn + list (L * option R) :=
  if is_unique (map right_on right)
  then inr (merge_left left right)
  else inl (MergeError
              "Merge keys are not unique in right dataset; not a many-to-one merge").

End Merge.

Section GroupBy.
Context {A K : Type} `{Key K}.
Variable by_ : A -> K.

Definition count_key (k : K) (keys : list K) : nat :=
  List.length (filter (key_eqb k) keys).

Fixpoint distinct (keys : list K) : list K :=
  match keys with
  | [] => []
  | k :: ks => k :: filter (fun k' => negb (key_eqb k k')) (distinct ks)
  end.

(** [df.groupby(by).size()]: one entry per key present, with the number
    of rows that carry it. *)
Definition groupby_size (rows : list A) : list (K * nat) :=
  let keys := map by_ rows in
  map (fun k => (k, count_key k keys)) (distinct keys).

End GroupBy.

(** [Series.max()]: NaN (here [None]) on an empty series. *)
Definition series_max (s : list nat) : option nat :=
  match s with
  | [] => None
  | x :: xs => Some (fold_left Nat.max xs x)
  end.

(** [series.max() == 1]: False when the maximum is NaN. *)
Definition max_eq_1 (s : list nat) : bool :=
  match series_max s with
  | Some n => Nat.eqb n 1
  | None => false
  end.

End Pandas.

Import Pandas.

#[export] Instance Key_DateCell : Key DateCell.
Proof.
  refine {| key_eqb := DateCell_eqb |}.
  intros [x| x |] [y| y |]; simpl; try (constructor; congruence).
  - destruct (Z.eqb_spec x y); constructor; congruence.
  - destruct (Z.eqb_spec x y); constructor; congruence.
Defined.

(** ** The frames

    A frame is the list of its rows, and a row is typed by the columns the
    function reads or writes; a column that can hold a null is an
    [option], or a [DateCell]. The identifiers of a transaction are
    present, and each dimension row carries its natural key and its
    surrogate key (the warehouse's data model): these columns are not
    nullable, and a null key can only come from a left merge. The other
    attributes a dimension may have ride along to the final projection,
    which leaves them out, and are not modelled. *)

(** What [transform_transactions_fn] returns: one row per transaction. *)
Module Source.
Record row : Type := {
  transaction_id : Z;
  transaction_key : Z;
  customer_id : string;
  timestamp : DateCell;
  amount_eur : float;
  exchange_rate : float;
  transaction_currency : string;
  category : string
}.
End Source.

(** [transactions_df] after "Standardize & Rename". *)
Module Txn.
Record row : Type := {
  transaction_id : Z;
  transaction_key : Z;
  customer_id : string;
  transaction_timestamp : DateCell;
  transaction_amount_eur : float;
  current_exchange_rate : float;
  transaction_currency : string;
  category : string;
  transaction_date : DateCell;
  is_high_value_transaction : Z
}.

(** [df["transaction_date"] = f(df["transaction_date"])], row by row. *)
Definition assign_transaction_date (f : DateCell -> DateCell) (r : row) : row :=
  {| transaction_id := transaction_id r;
     transaction_key := transaction_key r;
     customer_id := customer_id r;
     transaction_timestamp := transaction_timestamp r;
     transaction_amount_eur := transaction_amount_eur r;
     current_exchange_rate := current_exchange_rate r;
     transaction_currency := transaction_currency r;
     category := category r;
     transaction_date := f (transaction_date r);
     is_high_value_transaction := is_high_value_transaction r |}.
End Txn.

(** The customer dimension, one row per version of a customer (SCD2). *)
Module DimCustomer.
Record row : Type := {
  customer_id : string;
  customer_key : Z;
  effective_from : DateCell;
  effective_to : DateCell
}.

Definition assign_effective_from (f : DateCell -> DateCell) (r : row) : row :=
  {| customer_id := customer_id r;
     customer_key := customer_key r;
     effective_from := f (effective_from r);
     effective_to := effective_to r |}.

Definition assign_effective_to (f : DateCell -> DateCell) (r : row) : row :=
  {| customer_id := customer_id r;
     customer_key := customer_key r;
     effective_from := effective_from r;
     effective_to := f (effective_to r) |}.
End DimCustomer.

Module DimCurrency.
Record row : Type := {
  transaction_currency : string;
  currency_key : Z
}.
End DimCurrency.

Module DimCategory.
Record row : Type := {
  category : string;
  category_key : Z
}.
End DimCategory.

Module DimDate.
Record row : Type := {
  date : DateCell;
  date_key : Z
}.

Definition assign_date (f : DateCell -> DateCell) (r : row) : row :=
  {| date := f (date r); date_key := date_key r |}.
End DimDate.

(** [transactions_df] after the merge with [dim_customer]: the columns of
    both frames, those of the dimension null where no version matched. *)
Module Versioned.
Definition row : Type := (Txn.row * option DimCustomer.row)%type.

Definition transaction_id (r : row) : Z := Txn.transaction_id (fst r).
Definition transaction_date (r : row) : DateCell := Txn.transaction_date (fst r).

Definition customer_key (r : row) : option Z :=
  option_map DimCustomer.customer_key (snd r).

Definition effective_from (r : row) : DateCell :=
  match snd r with
  | Some v => DimCustomer.effective_from v
  | None => NaT
  end.

Definition effective_to (r : row) : DateCell :=
  match snd r with
  | Some v => DimCustomer.effective_to v
  | None => NaT
  end.
End Versioned.

(** [transactions_df] after [customer_id], [effective_from] and
    [effective_to] are dropped. *)
Module Resolved.
Record row : Type := {
  transaction_id : Z;
  transaction_key : Z;
  transaction_timestamp : DateCell;
  transaction_amount_eur : float;
  current_exchange_rate : float;
  transaction_currency : string;
  category : string;
  transaction_date : DateCell;
  is_high_value_transaction : Z;
  customer_key : option Z
}.
End Resolved.

(** [transactions_df] after the three merges with the static dimensions. *)
Module Keyed.
Definition row : Type :=
  (((Resolved.row * option DimCurrency.row)
    * option DimCategory.row)
   * option DimDate.row)%type.

Definition resolved (r : row) : Resolved.row := fst (fst (fst r)).

Definition currency_key (r : row) : option Z :=
  option_map DimCurrency.currency_key (snd (fst (fst r))).

Definition category_key (r : row) : option Z :=
  option_map DimCategory.category_key (snd (fst r)).

Definition date_key (r : row) : option Z :=
  option_map DimDate.date_key (snd r).
End Keyed.

(** [fact_transactions] *)
Module Fact.
Record row : Type := {
  transaction_id : Z;
  transaction_key : Z;
  customer_key : option Z;
  currency_key : option Z;
  category_key : option Z;
  date_key : option Z;
  transaction_timestamp : DateCell;
  transaction_amount_eur : float;
  current_exchange_rate : float;
  is_high_value_transaction : Z
}.
End Fact.

(** ** The file at [output_path], and the log *)

Inductive Cell : Type :=
| int_cell (z : Z)
| float_cell (x : float)
| datetime_cell (c : DateCell)
| null_cell.

Definition key_cell (k : option Z) : Cell :=
  match k with
  | Some z => int_cell z
  | None => null_cell
  end.

(** What [to_csv(path, index=False)] leaves in the file: the column labels,
    then one record per row. *)
Record Csv : Type := {
  header : list string;
  records : list (list Cell)
}.

(** [logger.info] of the frame's shape and of the path it was saved to. *)
Record LogRecord : Type := {
  shape : nat * nat;
  saved_to : string
}.

(** ** What the function shares with its caller *)

Record World : Type := {
  dim_customer : list DimCustomer.row;
  dim_currency : list DimCurrency.row;
  dim_category : list DimCategory.row;
  dim_date : list DimDate.row;
  files : string -> option Csv;
  log : list LogRecord
}.

Definition assign_dim_customer
  (f : list DimCustomer.row -> list DimCustomer.row) (w : World) : World :=
  {| dim_customer := f (dim_customer w);
     dim_currency := dim_currency w;
     dim_category := dim_category w;
     dim_date := dim_date w;
     files := files w;
     log := log w |}.

Definition assign_dim_date
  (f : list DimDate.row -> list DimDate.row) (w : World) : World :=
  {| dim_customer := dim_customer w;
     dim_currency := dim_currency w;
     dim_category := dim_category w;
     dim_date := f (dim_date w);
     files := files w;
     log := log w |}.

Definition put_file (path : string) (c : Csv) (w : World) : World :=
  {| dim_customer := dim_customer w;
     dim_currency := dim_currency w;
     dim_category := dim_category w;
     dim_date := dim_date w;
     files := fun p => if String.eqb p path then Some c else files w p;
     log := log w |}.

Definition put_log (r : LogRecord) (w : World) : World :=
  {| dim_customer := dim_customer w;
     dim_currency := dim_currency w;
     dim_category := dim_category w;
     dim_date := dim_date w;
     files := files w;
     log := log w ++ [r] |}.

(** ** Statements that change the world or raise

    A raised exception ends the run and leaves the world as the
    statements before it made it. *)

Definition M (A : Type) : Type := World -> World * (Exn + A).

Definition ret {A : Type} (a : A) : M A := fun w => (w, inr a).

Definition bind {A B : Type} (c : M A) (k : A -> M B) : M B :=
  fun w =>
    match c w with
    | (w', inr a) => k a w'
    | (w', inl e) => (w', inl e)
    end.

Definition raise {A : Type} (e : Exn) : M A := fun w => (w, inl e).

Definition gets {A : Type} (f : World -> A) : M A := fun w => (w, inr (f w)).

Definition modify (f : World -> World) : M unit := fun w => (f w, inr tt).

Definition lift {A : Type} (r : Exn + A) : M A := fun w => (w, r).

(** [assert cond, msg] *)
Definition assert_ (cond : bool) (msg : string) : M unit :=
  if cond then ret tt else raise (AssertionError msg).

Declare Scope run_scope.
Delimit Scope run_scope with run.

Notation "x <- c1 ;; c2" := (bind c1 (fun x => c2))
  (at level 61, c1 at next level, right associativity) : run_scope.
Notation "c1 ;; c2" := (bind c1 (fun _ => c2))
  (at level 61, right associativity) : run_scope.

#[local] Open Scope run_scope.

(** ** [build_fact_transactions], stage by stage *)

(** "Standardize & Rename": the three renamed columns, the parsed
    timestamp, its calendar date, and the high-value flag. *)
Definition normalize (t : Source.row) : Txn.row :=
  let transaction_timestamp := to_datetime (Source.timestamp t) in
  {| Txn.transaction_id := Source.transaction_id t;
     Txn.transaction_key := Source.transaction_key t;
     Txn.customer_id := Source.customer_id t;
     Txn.transaction_timestamp := transaction_timestamp;
     Txn.transaction_amount_eur := Source.amount_eur t;
     Txn.current_exchange_rate := Source.exchange_rate t;
     Txn.transaction_currency := Source.transaction_currency t;
     Txn.category := Source.category t;
     Txn.transaction_date := dt_date transaction_timestamp;
     Txn.is_high_value_transaction := gt_astype_int (Source.amount_eur t) 500 |}.

Definition normalizer (transactions_df : list Source.row) : list Txn.row :=
  map normalize transactions_df.

(** The mask of "Filter correct historical record". *)
Definition in_validity (r : Versioned.row) : bool :=
  ge (Versioned.transaction_date r) (Versioned.effective_from r)
  && le (Versioned.transaction_date r) (Versioned.effective_to r).

(** "Drop SCD tracking columns & natural key". *)
Definition drop_scd2 (r : Versioned.row) : Resolved.row :=
  let t := fst r in
  {| Resolved.transaction_id := Txn.transaction_id t;
     Resolved.transaction_key := Txn.transaction_key t;
     Resolved.transaction_timestamp := Txn.transaction_timestamp t;
     Resolved.transaction_amount_eur := Txn.transaction_amount_eur t;
     Resolved.current_exchange_rate := Txn.current_exchange_rate t;
     Resolved.transaction_currency := Txn.transaction_currency t;
     Resolved.category := Txn.category t;
     Resolved.transaction_date := Txn.transaction_date t;
     Resolved.is_high_value_transaction := Txn.is_high_value_transaction t;
     Resolved.customer_key := Versioned.customer_key r |}.

(** "Resolve SCD Type-2 Customer Dimension": the two interval columns of
    the caller's [dim_customer] are overwritten with their datetime values,
    an open [effective_to] filled with 2099-12-31; the transactions are
    merged with every version of their customer and the versions whose
    interval does not hold the transaction date are filtered out; the
    assertion wants the largest number of rows of one transaction to be 1. *)
Definition temporal_resolver (transactions_df : list Txn.row)
  : M (list Resolved.row) :=
  modify (assign_dim_customer
            (map (DimCustomer.assign_effective_from to_datetime))) ;;
  modify (assign_dim_customer
            (map (DimCustomer.assign_effective_to
                    (fun c => fillna (Timestamp 2099 12 31) (to_datetime c))))) ;;
  let transactions_df :=
    map (Txn.assign_transaction_date to_datetime) transactions_df in
  dim_customer <- gets dim_customer ;;
  let transactions_df :=
    merge_left Txn.customer_id DimCustomer.customer_id
      transactions_df dim_customer in
  let transactions_df := filter in_validity transactions_df in
  assert_
    (max_eq_1 (map snd (groupby_size Versioned.transaction_id transactions_df)))
    "SCD2 resolution failed: duplicate customer versions detected." ;;
  ret (map drop_scd2 transactions_df).

(** "Merge Static Dimensions": currency, category, then date, whose [date]
    column in the caller's [dim_date] is first overwritten with its
    datetime values. *)
Definition key_resolver (transactions_df : list Resolved.row)
  : M (list Keyed.row) :=
  dim_currency <- gets dim_currency ;;
  transactions_df <-
    lift (merge_left_many_to_one
            Resolved.transaction_currency DimCurrency.transaction_currency
            transactions_df dim_currency) ;;
  dim_category <- gets dim_category ;;
  transactions_df <-
    lift (merge_left_many_to_one
            (fun r => Resolved.category (fst r)) DimCategory.category
            transactions_df dim_category) ;;
  modify (assign_dim_date (map (DimDate.assign_date to_datetime))) ;;
  dim_date <- gets dim_date ;;
  lift (merge_left_many_to_one
          (fun r => Resolved.transaction_date (fst (fst r))) DimDate.date
          transactions_df dim_date).

(** "Final Fact Table": the projection on the ten columns. *)
Definition fact_columns : list string :=
  [ "transaction_id";
    "transaction_key";
    "customer_key";
    "currency_key";
    "category_key";
    "date_key";
    "transaction_timestamp";
    "transaction_amount_eur";
    "current_exchange_rate";
    "is_high_value_transaction" ].

Definition project (r : Keyed.row) : Fact.row :=
  let t := Keyed.resolved r in
  {| Fact.transaction_id := Resolved.transaction_id t;
     Fact.transaction_key := Resolved.transaction_key t;
     Fact.customer_key := Resolved.customer_key t;
     Fact.currency_key := Keyed.currency_key r;
     Fact.category_key := Keyed.category_key r;
     Fact.date_key := Keyed.date_key r;
     Fact.transaction_timestamp := Resolved.transaction_timestamp t;
     Fact.transaction_amount_eur := Resolved.transaction_amount_eur t;
     Fact.current_exchange_rate := Resolved.current_exchange_rate t;
     Fact.is_high_value_transaction := Resolved.is_high_value_transaction t |}.

(** "Final integrity checks" *)
Definition integrity_validator (fact_transactions : list Fact.row) : M unit :=
  assert_
    (Nat.eqb (isnull_sum (map Fact.customer_key fact_transactions)) 0)
    "Missing customer_key detected." ;;
  assert_
    (Nat.eqb (isnull_sum (map Fact.currency_key fact_transactions)) 0)
    "Missing currency_key detected." ;;
  assert_
    (Nat.eqb (isnull_sum (map Fact.category_key fact_transactions)) 0)
    "Missing category_key detected." ;;
  assert_
    (Nat.eqb (isnull_sum (map Fact.date_key fact_transactions)) 0)
    "Missing date_key detected.".

(** "Persist": the frame's cells, column by column in the frame's order. *)
Definition cells (r : Fact.row) : list Cell :=
  [ int_cell (Fact.transaction_id r);
    int_cell (Fact.transaction_key r);
    key_cell (Fact.customer_key r);
    key_cell (Fact.currency_key r);
    key_cell (Fact.category_key r);
    key_cell (Fact.date_key r);
    datetime_cell (Fact.transaction_timestamp r);
    float_cell (Fact.transaction_amount_eur r);
    float_cell (Fact.current_exchange_rate r);
    int_cell (Fact.is_high_value_transaction r) ].

Definition to_csv (fact_transactions : list Fact.row) : Csv :=
  {| header := fact_columns; records := map cells fact_transactions |}.

Definition publisher (output_path : string) (fact_transactions : list Fact.row)
  : M unit :=
  modify (put_file output_path (to_csv fact_transactions)) ;;
  modify (put_log
            {| shape := (List.length fact_transactions, List.length fact_columns);
               saved_to := output_path |}).

(** The frame of "Final Fact Table", before it is checked: everything the
    function does down to the projection. The dimension arguments are the
    frames of the world: the caller's own objects, not copies.
    [customers_df] is loaded and not used. *)
Definition final_fact_table {C : Type}
  (transform_transactions_fn : unit -> list Source.row)
  (transform_customers_fn : unit -> C) : M (list Fact.row) :=
  let transactions_df := transform_transactions_fn tt in
  let customers_df := transform_customers_fn tt in
  let transactions_df := normalizer transactions_df in
  transactions_df <- temporal_resolver transactions_df ;;
  transactions_df <- key_resolver transactions_df ;;
  ret (map project transactions_df).

(** The function. *)
Definition build_fact_transactions {C : Type}
  (transform_transactions_fn : unit -> list Source.row)
  (transform_customers_fn : unit -> C)
  (output_path : string) : M (list Fact.row) :=
  fact_transactions <-
    final_fact_table transform_transactions_fn transform_customers_fn ;;
  integrity_validator fact_transactions ;;
  publisher output_path fact_transactions ;;
  ret fact_transactions.

(** ** Notions the properties are stated with *)

(** What lines 76 to 79 make of a row of [dim_customer]. *)
Definition coerce_validity (v : DimCustomer.row) : DimCustomer.row :=
  DimCustomer.assign_effective_to
    (fun c => fillna (Timestamp 2099 12 31) (to_datetime c))
    (DimCustomer.assign_effective_from to_datetime v).

(** The rows that survive the interval filter, for the customer dimension
    and the normalized transactions the run starts from. *)
Definition surviving (dim_customer : list DimCustomer.row)
  (transactions_df : list Txn.row) : list Versioned.row :=
  filter in_validity
    (merge_left Txn.customer_id DimCustomer.customer_id
       (map (Txn.assign_transaction_date to_datetime) transactions_df)
       (map coerce_validity dim_customer)).

(** The number of surviving rows of one transaction_id: the size of its
    group in the [groupby]. *)
Definition survivors (id : Z) (rows : list Versioned.row) : nat :=
  count_key id (map Versioned.transaction_id rows).

(** Whether a version is valid at a transaction's date, on the columns as
    the merge sees them. *)
Definition valid_at (t : Txn.row) (v : DimCustomer.row) : bool :=
  key_eqb (Txn.customer_id t) (DimCustomer.customer_id v)
  && in_validity (t, Some v).

(** The message of the first of the four integrity checks that a frame
    fails, if it fails one. *)
Definition first_missing_key (fact_transactions : list Fact.row) : option string :=
  if negb (Nat.eqb (isnull_sum (map Fact.customer_key fact_transactions)) 0)
  then Some "Missing customer_key detected."
  else if negb (Nat.eqb (isnull_sum (map Fact.currency_key fact_transactions)) 0)
  then Some "Missing currency_key detected."
  else if negb (Nat.eqb (isnull_sum (map Fact.category_key fact_transactions)) 0)
  then Some "Missing category_key detected."
  else if negb (Nat.eqb (isnull_sum (map Fact.date_key fact_transactions)) 0)
  then Some "Missing date_key detected."
  else None.

(** The number of rows of a frame with a null in one of the four keys. *)
Definition null_key_rows (fact_transactions : list Fact.row) : nat :=
  List.length
    (filter
       (fun r =>
          isnull (Fact.customer_key r) || isnull (Fact.currency_key r)
          || isnull (Fact.category_key r) || isnull (Fact.date_key r))
       fact_transactions).

(** The versions of a customer dimension that are valid at a transaction,
    on the columns as the merge and the filter see them: the transaction
    normalized and its date made a datetime, the versions with their
    interval coerced. *)
Definition valid_versions (dim_customer : list DimCustomer.row)
  (t : Source.row) : list DimCustomer.row :=
  filter
    (valid_at (Txn.assign_transaction_date to_datetime (normalize t)))
    (map coerce_validity dim_customer).

(** Whether a transaction has a version of its customer valid at its
    date. *)
Definition covered (dim_customer : list DimCustomer.row) (t : Source.row)
  : bool :=
  match valid_versions dim_customer t with
  | [] => false
  | _ :: _ => true
  end.

(** The row the three validated merges make of a row, with the static
    dimensions of a world: the first row of each dimension that has its
    natural key, the date dimension's dates taken as datetimes. *)
Definition resolve_keys (w : World) (r : Resolved.row) : Keyed.row :=
  (r,
   find (fun d => key_eqb (Resolved.transaction_currency r)
                    (DimCurrency.transaction_currency d))
     (dim_currency w),
   find (fun d => key_eqb (Resolved.category r) (DimCategory.category d))
     (dim_category w),
   find (fun d => key_eqb (Resolved.transaction_date r) (DimDate.date d))
     (map (DimDate.assign_date to_datetime) (dim_date w))).

(** ** A small warehouse

    Customer C1 has two versions: key 100, valid from 2024-01-01 to
    2024-06-30, and key 101, valid from 2024-07-01 to 2099-12-31. *)

Module Scenario.

Definition day (y m d : Z) : DateCell := date_obj (days_from_civil y m d).

(** [pd.Timestamp("y-m-d hh:mm:00")] *)
Definition at_ (y m d hh mm : Z) : DateCell :=
  stamp (days_from_civil y m d * ns_per_day + (hh * 60 + mm) * 60 * 1000000000).

Definition V1 : DimCustomer.row :=
  {| DimCustomer.customer_id := "C1";
     DimCustomer.customer_key := 100;
     DimCustomer.effective_from := day 2024 1 1;
     DimCustomer.effective_to := day 2024 6 30 |}.

Definition V2 : DimCustomer.row :=
  {| DimCustomer.customer_id := "C1";
     DimCustomer.customer_key := 101;
     DimCustomer.effective_from := day 2024 7 1;
     DimCustomer.effective_to := day 2099 12 31 |}.

(** The current version as a dimension holds it while it is open: its
    dates are Timestamps already, its end is null. *)
Definition V_current : DimCustomer.row :=
  {| DimCustomer.customer_id := "C1";
     DimCustomer.customer_key := 101;
     DimCustomer.effective_from := Timestamp 2024 7 1;
     DimCustomer.effective_to := NaT |}.


Definition transaction (id : Z) (when : DateCell) (amount : float)
  (currency : string) : Source.row :=
  {| Source.transaction_id := id;
     Source.transaction_key := 1000 + id;
     Source.customer_id := "C1";
     Source.timestamp := when;
     Source.amount_eur := amount;
     Source.exchange_rate := 1%float;
     Source.transaction_currency := currency;
     Source.category := "groceries" |}.

Definition t1 : Source.row := transaction 1 (at_ 2024 6 15 10 30) 500%float "EUR".
Definition t2 : Source.row := transaction 2 (at_ 2024 7 2 23 59) 500.01%float "EUR".
Definition t3 : Source.row := transaction 3 (at_ 2024 12 25 0 0) 12.5%float "EUR".

(** A transaction of C1 dated before the first version of C1. *)
Definition t_gap : Source.row := transaction 4 (at_ 2023 3 1 9 0) 20%float "EUR".


(** Transactions in a currency the currency dimension does not have. *)
Definition t_usd : Source.row := transaction 5 (at_ 2024 6 15 8 0) 20%float "USD".
Definition t_usd' : Source.row := transaction 6 (at_ 2024 6 15 9 0) 30%float "USD".

Definition EUR : DimCurrency.row :=
  {| DimCurrency.transaction_currency := "EUR"; DimCurrency.currency_key := 1 |}.

Definition EUR' : DimCurrency.row :=
  {| DimCurrency.transaction_currency := "EUR"; DimCurrency.currency_key := 2 |}.

Definition groceries : DimCategory.row :=
  {| DimCategory.category := "groceries"; DimCategory.category_key := 7 |}.

Definition date_row (y m d key : Z) : DimDate.row :=
  {| DimDate.date := day y m d; DimDate.date_key := key |}.

Definition dates : list DimDate.row :=
  [ date_row 2023 3 1 20230301;
    date_row 2024 6 15 20240615;
    date_row 2024 7 2 20240702;
    date_row 2024 12 25 20241225 ].

Definition no_files : string -> option Csv := fun _ => None.

Definition warehouse (versions : list DimCustomer.row) : World :=
  {| dim_customer := versions;
     dim_currency := [EUR];
     dim_category := [groceries];
     dim_date := dates;
     files := no_files;
     log := [] |}.

Definition run (transactions : list Source.row) (w : World)
  : World * (Exn + list Fact.row) :=
  build_fact_transactions (fun _ => transactions) (fun _ => tt)
    "fact_transactions.csv" w.

(** The fact table a run builds before it checks it. *)
Definition fact_table (transactions : list Source.row) (w : World)
  : list Fact.row :=
  match snd (final_fact_table (fun _ => transactions) (fun _ => tt) w) with
  | inr fact_transactions => fact_transactions
  | inl _ => []
  end.

(** The customer key each transaction of an outcome was given. *)
Definition customer_keys (outcome : Exn + list Fact.row)
  : Exn + list (Z * option Z) :=
  match outcome with
  | inr fact_transactions =>
      inr (map (fun r => (Fact.transaction_id r, Fact.customer_key r))
             fact_transactions)
  | inl e => inl e
  end.

End Scenario.

(** * Properties *)

(** ** Keys *)

Section KeyFacts.
Context {K : Type} `{Key K}.

Lemma key_eqb_eq (x y : K) : key_eqb x y = true <-> x = y.
Proof.
  destruct (key_eqb_spec x y) as [E | N]; split; intro G;
    try assumption; try reflexivity; try discriminate.
  contradiction.
Qed.

Lemma key_eqb_refl (x : K) : key_eqb x x = true.
Proof. apply key_eqb_eq. reflexivity. Qed.

Lemma key_eqb_neq (x y : K) : key_eqb x y = false <-> x <> y.
Proof.
  destruct (key_eqb_spec x y) as [E | N]; split; intro G;
    try assumption; try reflexivity; try discriminate.
  contradiction.
Qed.

Lemma existsb_key_In (k : K) (ks : list K) :
  existsb (key_eqb k) ks = true <-> In k ks.
Proof.
  rewrite existsb_exists. split.
  - intros [x [Hin Heq]]. apply key_eqb_eq in Heq. subst x. exact Hin.
  - intro Hin. exists k. split; [exact Hin | apply key_eqb_refl].
Qed.

Lemma is_unique_NoDup (ks : list K) : is_unique ks = true <-> NoDup ks.
Proof.
  induction ks as [| k ks IH]; simpl.
  - split; [intros _; constructor | reflexivity].
  - rewrite andb_true_iff, negb_true_iff, IH, NoDup_cons_iff.
    split; intros [Hk Hks]; split; try exact Hks.
    + intro Hin. apply existsb_key_In in Hin. congruence.
    + destruct (existsb (key_eqb k) ks) eqn:E; [| reflexivity].
      apply existsb_key_In in E. contradiction.
Qed.

Lemma is_unique_false (ks : list K) : ~ NoDup ks -> is_unique ks = false.
Proof.
  intro N. destruct (is_unique ks) eqn:E; [| reflexivity].
  apply is_unique_NoDup in E. contradiction.
Qed.

End KeyFacts.

(** ** Left merges *)

Section MergeFacts.
Context {L R K : Type} `{Key K}.
Variable left_on : L -> K.
Variable right_on : R -> K.

#[local] Abbreviation same_key l := (fun r => key_eqb (left_on l) (right_on r)).

(** The rows a left row gives rise to. *)
Lemma merge_left_cons (l : L) (left : list L) (right : list R) :
  merge_left left_on right_on (l :: left) right =
  (match filter (same_key l) right with
   | [] => [(l, None)]
   | rs => map (fun r => (l, Some r)) rs
   end ++ merge_left left_on right_on left right)%list.
Proof. reflexivity. Qed.



(** Every left row is in the merge at least once: a left merge drops
    nothing. *)
Lemma merge_left_keeps (left : list L) (right : list R) (l : L) :
  In l left -> exists r, In (l, r) (merge_left left_on right_on left right).
Proof.
  intro Hl. unfold merge_left.
  destruct (filter (same_key l) right) as [| r0 rs] eqn:F.
  - exists None. apply in_flat_map. exists l. split; [exact Hl |].
    rewrite F. left. reflexivity.
  - exists (Some r0). apply in_flat_map. exists l. split; [exact Hl |].
    rewrite F. left. reflexivity.
Qed.

Lemma filter_key_absent (k : K) (right : list R) :
  ~ In k (map right_on right) ->
  filter (fun r => key_eqb k (right_on r)) right = [].
Proof.
  induction right as [| r rs IH]; simpl; intro Hk; [reflexivity |].
  destruct (key_eqb_spec k (right_on r)) as [E | E].
  - exfalso. apply Hk. left. symmetry. exact E.
  - apply IH. intro Hin. apply Hk. right. exact Hin.
Qed.

(** With unique right keys at most one right row has a given key: the
    first one. *)
Lemma filter_unique_key (k : K) (right : list R) :
  NoDup (map right_on right) ->
  filter (fun r => key_eqb k (right_on r)) right =
  match find (fun r => key_eqb k (right_on r)) right with
  | Some r => [r]
  | None => []
  end.
Proof.
  induction right as [| r rs IH]; simpl; intro N; [reflexivity |].
  apply NoDup_cons_iff in N. destruct N as [Hr N].
  destruct (key_eqb_spec k (right_on r)) as [E | E].
  - subst k. rewrite (filter_key_absent _ _ Hr). reflexivity.
  - apply IH. exact N.
Qed.

(** A validated merge is a lookup: one row out per row in, in order. *)
Lemma merge_left_unique (left : list L) (right : list R) :
  NoDup (map right_on right) ->
  merge_left left_on right_on left right =
  map (fun l => (l, find (same_key l) right)) left.
Proof.
  intro N. induction left as [| l ls IH]; [reflexivity |].
  rewrite merge_left_cons, IH. simpl.
  rewrite (filter_unique_key (left_on l) right N).
  destruct (find (same_key l) right); reflexivity.
Qed.

Lemma merge_left_many_to_one_inr (left : list L) (right : list R)
  (out : list (L * option R)) :
  merge_left_many_to_one left_on right_on left right = inr out ->
  NoDup (map right_on right)
  /\ out = map (fun l => (l, find (same_key l) right)) left.
Proof.
  unfold merge_left_many_to_one.
  destruct (is_unique (map right_on right)) eqn:U; [| discriminate].
  intro E. inversion E; subst out. apply is_unique_NoDup in U.
  split; [exact U | apply merge_left_unique; exact U].
Qed.

Lemma merge_left_many_to_one_dup (left : list L) (right : list R) :
  ~ NoDup (map right_on right) ->
  merge_left_many_to_one left_on right_on left right =
  inl (MergeError
         "Merge keys are not unique in right dataset; not a many-to-one merge").
Proof.
  intro N. unfold merge_left_many_to_one.
  rewrite (is_unique_false _ N). reflexivity.
Qed.

Lemma find_same_key_None (l : L) (right : list R) :
  (forall r, In r right -> left_on l <> right_on r) ->
  find (same_key l) right = None.
Proof.
  intro Hno. destruct (find (same_key l) right) as [r |] eqn:F; [| reflexivity].
  apply find_some in F. destruct F as [Hr Hk]. apply key_eqb_eq in Hk.
  exfalso. exact (Hno r Hr Hk).
Qed.

End MergeFacts.

(** ** Group sizes and their maximum *)

Lemma fold_left_max_le (xs : list nat) (x : nat) :
  (x <= fold_left Nat.max xs x)%nat
  /\ Forall (fun n => (n <= fold_left Nat.max xs x)%nat) xs.
Proof.
  revert x. induction xs as [| y ys IH]; intro x; simpl.
  - split; [lia | constructor].
  - destruct (IH (Nat.max x y)) as [Hx Hys]. split; [lia |].
    constructor; [lia | exact Hys].
Qed.


Lemma series_max_le (s : list nat) (m : nat) :
  series_max s = Some m -> Forall (fun n => (n <= m)%nat) s.
Proof.
  destruct s as [| x xs]; simpl; intro E; [constructor |].
  inversion E; subst m. destruct (fold_left_max_le xs x) as [Hx Hxs].
  constructor; assumption.
Qed.


Section GroupByFacts.
Context {A K : Type} `{Key K}.
Variable by_ : A -> K.

Lemma count_key_pos (k : K) (keys : list K) :
  In k keys <-> (0 < count_key k keys)%nat.
Proof.
  unfold count_key. induction keys as [| k' ks IH]; simpl.
  - split; [intros [] | lia].
  - destruct (key_eqb_spec k k') as [E | N]; simpl.
    + split; [lia | auto].
    + rewrite <- IH. split; [intros [E | Hin]; [congruence | exact Hin] | auto].
Qed.

Lemma distinct_In (k : K) (keys : list K) : In k (distinct keys) <-> In k keys.
Proof.
  induction keys as [| k' ks IH]; simpl; [reflexivity |].
  rewrite filter_In, IH, negb_true_iff, key_eqb_neq.
  destruct (key_eqb_spec k' k) as [E | N].
  - split; auto.
  - split; [intros [E | [Hin _]]; auto | intros [E | Hin]; auto].
Qed.

Lemma groupby_size_In (rows : list A) (k : K) :
  In k (map by_ rows) ->
  In (count_key k (map by_ rows)) (map snd (groupby_size by_ rows)).
Proof.
  intro Hin. unfold groupby_size. rewrite map_map. simpl.
  apply in_map_iff. exists k. split; [reflexivity |].
  apply distinct_In. exact Hin.
Qed.

(** The assertion passes only if no key has more than one row. *)
Lemma max_eq_1_at_most_one (rows : list A) :
  max_eq_1 (map snd (groupby_size by_ rows)) = true ->
  forall k, (count_key k (map by_ rows) <= 1)%nat.
Proof.
  unfold max_eq_1. intros Hmax k.
  destruct (series_max (map snd (groupby_size by_ rows))) as [m |] eqn:E;
    [| discriminate].
  apply Nat.eqb_eq in Hmax. subst m.
  destruct (count_key k (map by_ rows)) as [| n] eqn:C; [lia |].
  assert (Hin : In k (map by_ rows)) by (apply count_key_pos; lia).
  apply groupby_size_In in Hin. rewrite C in Hin.
  apply series_max_le in E. rewrite Forall_forall in E. exact (E _ Hin).
Qed.


(** It fails as soon as one key has two rows. *)
Lemma max_eq_1_overlap (rows : list A) (k : K) :
  (1 < count_key k (map by_ rows))%nat ->
  max_eq_1 (map snd (groupby_size by_ rows)) = false.
Proof.
  intro Hk. destruct (max_eq_1 (map snd (groupby_size by_ rows))) eqn:E;
    [| reflexivity].
  pose proof (max_eq_1_at_most_one rows E k). lia.
Qed.


End GroupByFacts.

(** ** Lists *)

Lemma filter_andb {A : Type} (p q : A -> bool) (l : list A) :
  filter (fun x => p x && q x) l = filter q (filter p l).
Proof.
  induction l as [| x xs IH]; simpl; [reflexivity |].
  destruct (p x); simpl; [destruct (q x) |]; rewrite IH; reflexivity.
Qed.

Lemma filter_map_swap {A B : Type} (p : B -> bool) (f : A -> B) (l : list A) :
  filter p (map f l) = map f (filter (fun x => p (f x)) l).
Proof.
  induction l as [| x xs IH]; simpl; [reflexivity |].
  destruct (p (f x)); simpl; rewrite IH; reflexivity.
Qed.

(** ** The run, stage by stage *)

(** The temporal resolver always rewrites [dim_customer]; it passes its
    rows on when the assertion holds of the surviving rows. *)
Lemma temporal_resolver_run (transactions_df : list Txn.row) (w : World) :
  temporal_resolver transactions_df w =
  (assign_dim_customer (map coerce_validity) w,
   if max_eq_1
        (map snd
           (groupby_size Versioned.transaction_id
              (surviving (dim_customer w) transactions_df)))
   then inr (map drop_scd2 (surviving (dim_customer w) transactions_df))
   else inl (AssertionError
               "SCD2 resolution failed: duplicate customer versions detected.")).
Proof.
  unfold temporal_resolver, bind, modify, gets, assert_, ret, raise, surviving.
  simpl. unfold assign_dim_customer at 1 2 3. simpl.
  rewrite map_map.
  change (fun x : DimCustomer.row =>
            DimCustomer.assign_effective_to
              (fun c : DateCell => fillna (Timestamp 2099 12 31) (to_datetime c))
              (DimCustomer.assign_effective_from to_datetime x))
    with coerce_validity.
  destruct (max_eq_1 _); reflexivity.
Qed.

(** The key resolver: three validated merges, the third after [dim_date]
    is rewritten. *)
Lemma key_resolver_run (transactions_df : list Resolved.row) (w : World) :
  key_resolver transactions_df w =
  let merge_error :=
    MergeError
      "Merge keys are not unique in right dataset; not a many-to-one merge" in
  let w' := assign_dim_date (map (DimDate.assign_date to_datetime)) w in
  if is_unique (map DimCurrency.transaction_currency (dim_currency w)) then
    if is_unique (map DimCategory.category (dim_category w)) then
      if is_unique (map DimDate.date (dim_date w')) then
        (w',
         inr (merge_left
                (fun r => Resolved.transaction_date (fst (fst r))) DimDate.date
                (merge_left
                   (fun r => Resolved.category (fst r)) DimCategory.category
                   (merge_left
                      Resolved.transaction_currency
                      DimCurrency.transaction_currency
                      transactions_df (dim_currency w))
                   (dim_category w))
                (dim_date w')))
      else (w', inl merge_error)
    else (w, inl merge_error)
  else (w, inl merge_error).
Proof.
  unfold key_resolver, bind, gets, lift, modify, merge_left_many_to_one.
  cbv zeta.
  destruct (is_unique (map DimCurrency.transaction_currency (dim_currency w)));
    [| reflexivity].
  destruct (is_unique (map DimCategory.category (dim_category w)));
    [| reflexivity].
  destruct (is_unique
              (map DimDate.date
                 (dim_date
                    (assign_dim_date (map (DimDate.assign_date to_datetime)) w))));
    reflexivity.
Qed.

(** The validator raises the first check that fails. *)
Lemma integrity_validator_run (fact_transactions : list Fact.row) (w : World) :
  integrity_validator fact_transactions w =
  (w,
   match first_missing_key fact_transactions with
   | Some msg => inl (AssertionError msg)
   | None => inr tt
   end).
Proof.
  unfold integrity_validator, first_missing_key, bind, assert_, ret, raise.
  destruct (Nat.eqb (isnull_sum (map Fact.customer_key fact_transactions)) 0);
    [| reflexivity].
  destruct (Nat.eqb (isnull_sum (map Fact.currency_key fact_transactions)) 0);
    [| reflexivity].
  destruct (Nat.eqb (isnull_sum (map Fact.category_key fact_transactions)) 0);
    [| reflexivity].
  destruct (Nat.eqb (isnull_sum (map Fact.date_key fact_transactions)) 0);
    reflexivity.
Qed.

Lemma final_fact_table_run {C : Type}
  (transform_transactions_fn : unit -> list Source.row)
  (transform_customers_fn : unit -> C) (w : World) :
  final_fact_table transform_transactions_fn transform_customers_fn w =
  match temporal_resolver (normalizer (transform_transactions_fn tt)) w with
  | (w1, inl e) => (w1, inl e)
  | (w1, inr resolved) =>
      match key_resolver resolved w1 with
      | (w2, inl e) => (w2, inl e)
      | (w2, inr keyed) => (w2, inr (map project keyed))
      end
  end.
Proof.
  unfold final_fact_table, bind, ret.
  destruct (temporal_resolver _ w) as [w1 [e | resolved]]; [reflexivity |].
  destruct (key_resolver resolved w1) as [w2 [e | keyed]]; reflexivity.
Qed.

(** The whole function: the file and the log are touched last, and only
    when nothing was raised. *)
Lemma build_fact_transactions_run {C : Type}
  (transform_transactions_fn : unit -> list Source.row)
  (transform_customers_fn : unit -> C) (output_path : string) (w : World) :
  build_fact_transactions
    transform_transactions_fn transform_customers_fn output_path w =
  match final_fact_table transform_transactions_fn transform_customers_fn w with
  | (w1, inl e) => (w1, inl e)
  | (w1, inr fact_transactions) =>
      match first_missing_key fact_transactions with
      | Some msg => (w1, inl (AssertionError msg))
      | None =>
          (put_log
             {| shape := (List.length fact_transactions, List.length fact_columns);
                saved_to := output_path |}
             (put_file output_path (to_csv fact_transactions) w1),
           inr fact_transactions)
      end
  end.
Proof.
  unfold build_fact_transactions. unfold bind at 1.
  destruct (final_fact_table _ _ w) as [w1 [e | fact]]; [reflexivity |].
  unfold bind at 1. rewrite integrity_validator_run.
  destruct (first_missing_key fact); reflexivity.
Qed.

(** What the stages before the checks leave of the world. *)
Lemma final_fact_table_world {C : Type}
  (transform_transactions_fn : unit -> list Source.row)
  (transform_customers_fn : unit -> C) (w : World) :
  let w1 :=
    fst (final_fact_table transform_transactions_fn transform_customers_fn w) in
  dim_customer w1 = map coerce_validity (dim_customer w)
  /\ dim_currency w1 = dim_currency w
  /\ dim_category w1 = dim_category w
  /\ (dim_date w1 = dim_date w
      \/ dim_date w1 = map (DimDate.assign_date to_datetime) (dim_date w))
  /\ files w1 = files w
  /\ log w1 = log w.
Proof.
  cbv zeta. rewrite final_fact_table_run, temporal_resolver_run.
  destruct (max_eq_1 _); simpl; [| tauto].
  rewrite key_resolver_run. cbv zeta.
  repeat match goal with
         | |- context [if ?b then _ else _] => destruct b
         end; simpl; tauto.
Qed.

(** ** The surviving rows *)

Lemma in_validity_unmatched (t : Txn.row) : in_validity (t, None) = false.
Proof.
  unfold in_validity, ge, le. simpl.
  destruct (Txn.transaction_date t); reflexivity.
Qed.

(** The rows that survive are the pairs of a transaction and a version of
    its customer valid at its date; the rows the left merge keeps for
    transactions without a version of their customer do not survive. *)
Lemma surviving_valid (dim_customer : list DimCustomer.row)
  (transactions_df : list Txn.row) :
  surviving dim_customer transactions_df =
  flat_map
    (fun t =>
       map (fun v => (t, Some v))
         (filter (valid_at t) (map coerce_validity dim_customer)))
    (map (Txn.assign_transaction_date to_datetime) transactions_df).
Proof.
  unfold surviving.
  induction (map (Txn.assign_transaction_date to_datetime) transactions_df)
    as [| t ts IH]; [reflexivity |].
  rewrite merge_left_cons, filter_app. cbn [flat_map].
  f_equal; [| exact IH].
  unfold valid_at. rewrite filter_andb.
  destruct (filter
              (fun r => key_eqb (Txn.customer_id t) (DimCustomer.customer_id r))
              (map coerce_validity dim_customer)) as [| v vs].
  - cbn [filter map]. rewrite in_validity_unmatched. reflexivity.
  - apply (filter_map_swap in_validity (fun v' => (t, Some v'))).
Qed.

Lemma surviving_In (dim_customer : list DimCustomer.row)
  (transactions_df : list Txn.row) (r : Versioned.row) :
  In r (surviving dim_customer transactions_df) <->
  exists t v,
    r = (t, Some v)
    /\ In t (map (Txn.assign_transaction_date to_datetime) transactions_df)
    /\ In v (map coerce_validity dim_customer)
    /\ valid_at t v = true.
Proof.
  rewrite surviving_valid, in_flat_map. split.
  - intros [t [Ht Hr]]. apply in_map_iff in Hr. destruct Hr as [v [E Hv]].
    apply filter_In in Hv. exists t, v. intuition.
  - intros [t [v [E [Ht [Hv Hval]]]]]. exists t. split; [exact Ht |].
    subst r. apply (in_map (fun v' => (t, Some v'))).
    apply filter_In. split; assumption.
Qed.

(** Validity, spelled out: same customer, and three Timestamps in order,
    both ends included. *)
Lemma valid_at_iff (t : Txn.row) (v : DimCustomer.row) :
  valid_at t v = true <->
  Txn.customer_id t = DimCustomer.customer_id v
  /\ exists from date to,
       DimCustomer.effective_from v = stamp from
       /\ Txn.transaction_date t = stamp date
       /\ DimCustomer.effective_to v = stamp to
       /\ from <= date <= to.
Proof.
  unfold valid_at. rewrite andb_true_iff, key_eqb_eq.
  unfold in_validity, Versioned.transaction_date,
    Versioned.effective_from, Versioned.effective_to, ge, le. simpl.
  split.
  - intros [Hc Hv]. split; [exact Hc |].
    destruct (DimCustomer.effective_from v) as [| from |];
      destruct (Txn.transaction_date t) as [| date |];
      destruct (DimCustomer.effective_to v) as [| to |];
      simpl in Hv; try discriminate;
      try (rewrite andb_false_r in Hv; discriminate).
    apply andb_true_iff in Hv. destruct Hv as [H1 H2].
    apply Z.leb_le in H1, H2. exists from, date, to. intuition.
  - intros [Hc [from [date [to [Ef [Ed [Et [H1 H2]]]]]]]].
    split; [exact Hc |]. rewrite Ef, Ed, Et.
    apply andb_true_iff. split; apply Z.leb_le; assumption.
Qed.


(** Validity in terms of the frames as the run found them: the version's
    dates taken as datetimes, an open end as 2099-12-31. *)
Lemma valid_at_source (t : Txn.row) (v : DimCustomer.row) :
  valid_at (Txn.assign_transaction_date to_datetime t) (coerce_validity v) = true
  <->
  Txn.customer_id t = DimCustomer.customer_id v
  /\ exists from date to,
       to_datetime (DimCustomer.effective_from v) = stamp from
       /\ to_datetime (Txn.transaction_date t) = stamp date
       /\ fillna (Timestamp 2099 12 31) (to_datetime (DimCustomer.effective_to v))
          = stamp to
       /\ from <= date <= to.
Proof. rewrite valid_at_iff. reflexivity. Qed.

(** ** The Temporal Resolver *)

(** C3. When the Temporal Resolver returns, its rows are exactly the
    transactions paired with the versions of their customer for which
    effective_from <= transaction_date <= effective_to, both bounds
    included (the dates as datetimes, an open effective_to as 2099-12-31),
    each carrying the customer_key of its version. In the scenario of the
    two versions of C1, keys 100 and 101, the transactions dated
    2024-06-15, 2024-07-02 and 2024-12-25 get customer_key 100, 101 and
    101. *)
Theorem temporal_resolver_matches_inclusive :
  (forall (w : World) (transactions_df : list Txn.row)
          (resolved : list Resolved.row),
      snd (temporal_resolver transactions_df w) = inr resolved ->
      forall r : Resolved.row,
        In r resolved <->
        exists t v,
          In t transactions_df
          /\ In v (dim_customer w)
          /\ r = drop_scd2 (Txn.assign_transaction_date to_datetime t,
                            Some (coerce_validity v))
          /\ Resolved.customer_key r = Some (DimCustomer.customer_key v)
          /\ Txn.customer_id t = DimCustomer.customer_id v
          /\ exists from date to,
               to_datetime (DimCustomer.effective_from v) = stamp from
               /\ to_datetime (Txn.transaction_date t) = stamp date
               /\ fillna (Timestamp 2099 12 31)
                    (to_datetime (DimCustomer.effective_to v)) = stamp to
               /\ from <= date <= to)
  /\ Scenario.customer_keys
       (snd (Scenario.run [Scenario.t1; Scenario.t2; Scenario.t3]
               (Scenario.warehouse [Scenario.V1; Scenario.V2])))
     = inr [(1, Some 100); (2, Some 101); (3, Some 101)].
Proof.
  split; [| vm_compute; reflexivity].
  intros w transactions_df resolved Hrun r.
  rewrite temporal_resolver_run in Hrun. simpl in Hrun.
  destruct (max_eq_1 _); [| discriminate].
  inversion Hrun; subst resolved; clear Hrun.
  rewrite in_map_iff. split.
  - intros [x [Hx Hin]]. apply surviving_In in Hin.
    destruct Hin as [t' [v' [E [Ht' [Hv' Hval]]]]].
    apply in_map_iff in Ht'. destruct Ht' as [t [Et Ht]].
    apply in_map_iff in Hv'. destruct Hv' as [v [Ev Hv]].
    subst t' v' x r. exists t, v.
    apply valid_at_source in Hval. destruct Hval as [Hc Hd].
    repeat split; try assumption.
  - intros [t [v [Ht [Hv [Er [_ [Hc Hd]]]]]]].
    exists (Txn.assign_transaction_date to_datetime t, Some (coerce_validity v)).
    split; [symmetry; exact Er |].
    apply surviving_In.
    exists (Txn.assign_transaction_date to_datetime t), (coerce_validity v).
    split; [reflexivity |].
    split; [apply in_map; exact Ht |].
    split; [apply in_map; exact Hv |].
    apply valid_at_source. split; assumption.
Qed.

Lemma temporal_resolver_matches_inclusive_witness :
  snd (temporal_resolver
         (normalizer [Scenario.t1; Scenario.t2; Scenario.t3])
         (Scenario.warehouse [Scenario.V1; Scenario.V2]))
  = inr (map drop_scd2
           (surviving [Scenario.V1; Scenario.V2]
              (normalizer [Scenario.t1; Scenario.t2; Scenario.t3])))
  /\ (In (drop_scd2
            (Txn.assign_transaction_date to_datetime (normalize Scenario.t1),
             Some (coerce_validity Scenario.V1)))
         (map drop_scd2
            (surviving [Scenario.V1; Scenario.V2]
               (normalizer [Scenario.t1; Scenario.t2; Scenario.t3]))) <->
      exists t v,
        In t (normalizer [Scenario.t1; Scenario.t2; Scenario.t3])
        /\ In v (dim_customer (Scenario.warehouse [Scenario.V1; Scenario.V2]))
        /\ drop_scd2
             (Txn.assign_transaction_date to_datetime (normalize Scenario.t1),
              Some (coerce_validity Scenario.V1))
           = drop_scd2 (Txn.assign_transaction_date to_datetime t,
                        Some (coerce_validity v))
        /\ Resolved.customer_key
             (drop_scd2
                (Txn.assign_transaction_date to_datetime (normalize Scenario.t1),
                 Some (coerce_validity Scenario.V1)))
           = Some (DimCustomer.customer_key v)
        /\ Txn.customer_id t = DimCustomer.customer_id v
        /\ exists from date to,
             to_datetime (DimCustomer.effective_from v) = stamp from
             /\ to_datetime (Txn.transaction_date t) = stamp date
             /\ fillna (Timestamp 2099 12 31)
                  (to_datetime (DimCustomer.effective_to v)) = stamp to
             /\ from <= date <= to).
Proof.
  assert (Hrun :
    snd (temporal_resolver
           (normalizer [Scenario.t1; Scenario.t2; Scenario.t3])
           (Scenario.warehouse [Scenario.V1; Scenario.V2]))
    = inr (map drop_scd2
             (surviving [Scenario.V1; Scenario.V2]
                (normalizer [Scenario.t1; Scenario.t2; Scenario.t3]))))
    by (vm_compute; reflexivity).
  split; [exact Hrun |].
  exact (proj1 temporal_resolver_matches_inclusive _ _ _ Hrun _).
Defined.


(** C1. A transaction dated outside every validity interval of its
    customer is not detected: next to a transaction that resolves, it has
    no surviving row, the run completes, and the fact table that is
    returned and written holds the other transaction only. *)
Theorem gap_transaction_is_dropped_silently :
  survivors 4
    (surviving [Scenario.V1; Scenario.V2]
       (normalizer [Scenario.t1; Scenario.t_gap])) = 0%nat
  /\ Scenario.customer_keys
       (snd (Scenario.run [Scenario.t1; Scenario.t_gap]
               (Scenario.warehouse [Scenario.V1; Scenario.V2])))
     = inr [(1, Some 100)]
  /\ option_map
       (fun csv => map (fun record => nth 0 record null_cell) (records csv))
       (files
          (fst (Scenario.run [Scenario.t1; Scenario.t_gap]
                  (Scenario.warehouse [Scenario.V1; Scenario.V2])))
          "fact_transactions.csv")
     = Some [int_cell 1].
Proof. vm_compute. repeat split. Qed.

(** ** Overlapping versions *)




(** ** The Integrity Validator *)

Lemma isnull_sum_cons {A : Type} (c : option A) (col : list (option A)) :
  isnull_sum (c :: col) =
  ((if isnull c then 1 else 0) + isnull_sum col)%nat.
Proof. unfold isnull_sum. simpl. destruct (isnull c); reflexivity. Qed.

(** No row has a null key exactly when each key column counts no null. *)
Lemma null_key_rows_zero (fact_transactions : list Fact.row) :
  null_key_rows fact_transactions = 0%nat <->
  isnull_sum (map Fact.customer_key fact_transactions) = 0%nat
  /\ isnull_sum (map Fact.currency_key fact_transactions) = 0%nat
  /\ isnull_sum (map Fact.category_key fact_transactions) = 0%nat
  /\ isnull_sum (map Fact.date_key fact_transactions) = 0%nat.
Proof.
  unfold null_key_rows.
  induction fact_transactions as [| r rs IH]; simpl.
  - unfold isnull_sum. simpl. tauto.
  - rewrite !isnull_sum_cons.
    destruct (isnull (Fact.customer_key r)), (isnull (Fact.currency_key r)),
      (isnull (Fact.category_key r)), (isnull (Fact.date_key r));
      simpl; try (split; [discriminate | lia]).
    rewrite IH. tauto.
Qed.

Lemma first_missing_key_None (fact_transactions : list Fact.row) :
  first_missing_key fact_transactions = None <->
  null_key_rows fact_transactions = 0%nat.
Proof.
  rewrite null_key_rows_zero. unfold first_missing_key.
  destruct (Nat.eqb_spec (isnull_sum (map Fact.customer_key fact_transactions)) 0);
    simpl; [| split; [discriminate | tauto]].
  destruct (Nat.eqb_spec (isnull_sum (map Fact.currency_key fact_transactions)) 0);
    simpl; [| split; [discriminate | tauto]].
  destruct (Nat.eqb_spec (isnull_sum (map Fact.category_key fact_transactions)) 0);
    simpl; [| split; [discriminate | tauto]].
  destruct (Nat.eqb_spec (isnull_sum (map Fact.date_key fact_transactions)) 0);
    simpl; [| split; [discriminate | tauto]].
  tauto.
Qed.

(** C4, as amended. If, after all key resolutions, a row of the fact
    table has a null in customer_key, currency_key, category_key or
    date_key, the run aborts with an AssertionError before the file is
    written and before anything is logged. The message names one key
    column: the first, in the order customer_key, currency_key,
    category_key, date_key, that holds a null. *)
Theorem null_key_aborts_before_write {C : Type}
  (transform_transactions_fn : unit -> list Source.row)
  (transform_customers_fn : unit -> C) (output_path : string) (w : World)
  (fact_transactions : list Fact.row) :
  snd (final_fact_table transform_transactions_fn transform_customers_fn w)
  = inr fact_transactions ->
  (0 < null_key_rows fact_transactions)%nat ->
  exists msg,
    snd (build_fact_transactions
           transform_transactions_fn transform_customers_fn output_path w)
    = inl (AssertionError msg)
    /\ files (fst (build_fact_transactions
                     transform_transactions_fn transform_customers_fn
                     output_path w))
       = files w
    /\ log (fst (build_fact_transactions
                   transform_transactions_fn transform_customers_fn
                   output_path w))
       = log w
    /\ let customer := isnull_sum (map Fact.customer_key fact_transactions) in
       let currency := isnull_sum (map Fact.currency_key fact_transactions) in
       let category := isnull_sum (map Fact.category_key fact_transactions) in
       let date := isnull_sum (map Fact.date_key fact_transactions) in
       (customer <> 0%nat /\ msg = "Missing customer_key detected.")
       \/ (customer = 0%nat /\ currency <> 0%nat
           /\ msg = "Missing currency_key detected.")
       \/ (customer = 0%nat /\ currency = 0%nat /\ category <> 0%nat
           /\ msg = "Missing category_key detected.")
       \/ (customer = 0%nat /\ currency = 0%nat /\ category = 0%nat
           /\ date <> 0%nat /\ msg = "Missing date_key detected.").
Proof.
  intros Htable Hnull.
  pose proof (final_fact_table_world
                transform_transactions_fn transform_customers_fn w) as Hw.
  cbv zeta in Hw. destruct Hw as [_ [_ [_ [_ [Hfiles Hlog]]]]].
  rewrite build_fact_transactions_run.
  destruct (final_fact_table transform_transactions_fn transform_customers_fn w)
    as [w1 [e | fact]]; simpl in Htable; [discriminate |].
  inversion Htable; subst fact; clear Htable. simpl in Hfiles, Hlog.
  destruct (first_missing_key fact_transactions) as [msg |] eqn:Hmsg.
  - exists msg. simpl. repeat split; try assumption.
    unfold first_missing_key in Hmsg.
    destruct (Nat.eqb_spec
                (isnull_sum (map Fact.customer_key fact_transactions)) 0);
      simpl in Hmsg; [| inversion Hmsg; tauto].
    destruct (Nat.eqb_spec
                (isnull_sum (map Fact.currency_key fact_transactions)) 0);
      simpl in Hmsg; [| inversion Hmsg; tauto].
    destruct (Nat.eqb_spec
                (isnull_sum (map Fact.category_key fact_transactions)) 0);
      simpl in Hmsg; [| inversion Hmsg; tauto].
    destruct (Nat.eqb_spec
                (isnull_sum (map Fact.date_key fact_transactions)) 0);
      simpl in Hmsg; [discriminate | inversion Hmsg; tauto].
  - apply first_missing_key_None in Hmsg. lia.
Qed.

Lemma null_key_aborts_before_write_witness :
  exists msg,
    snd (Scenario.run [Scenario.t1; Scenario.t_usd]
           (Scenario.warehouse [Scenario.V1; Scenario.V2]))
    = inl (AssertionError msg)
    /\ files (fst (Scenario.run [Scenario.t1; Scenario.t_usd]
                     (Scenario.warehouse [Scenario.V1; Scenario.V2])))
       = files (Scenario.warehouse [Scenario.V1; Scenario.V2])
    /\ log (fst (Scenario.run [Scenario.t1; Scenario.t_usd]
                   (Scenario.warehouse [Scenario.V1; Scenario.V2])))
       = log (Scenario.warehouse [Scenario.V1; Scenario.V2])
    /\ msg = "Missing currency_key detected.".
Proof.
  destruct (null_key_aborts_before_write
              (fun _ => [Scenario.t1; Scenario.t_usd]) (fun _ => tt)
              "fact_transactions.csv"
              (Scenario.warehouse [Scenario.V1; Scenario.V2])
              (Scenario.fact_table [Scenario.t1; Scenario.t_usd]
                 (Scenario.warehouse [Scenario.V1; Scenario.V2])))
    as [msg [Hrun [Hfiles [Hlog Hmsg]]]].
  - vm_compute. reflexivity.
  - vm_compute. lia.
  - exists msg. repeat split; try assumption.
    vm_compute in Hmsg.
    destruct Hmsg as [[N _] | [[_ [_ E]] | [[_ [N _]] | [_ [N _]]]]];
      try discriminate; try exact E; exfalso; apply N; reflexivity.
Defined.

(** Against C4 as the specification words it: the error does not
    report the count of affected rows. Two runs on the same warehouse, one
    with one transaction in an unknown currency and one with two, raise
    the same exception, so no reading of the exception gives the count. *)
Lemma missing_key_error_hides_the_count :
  ~ exists reported_count : Exn -> nat,
      forall (transactions : list Source.row) (w : World)
             (fact_transactions : list Fact.row) (e : Exn),
        snd (final_fact_table (fun _ => transactions) (fun _ => tt) w)
        = inr fact_transactions ->
        snd (Scenario.run transactions w) = inl e ->
        reported_count e = null_key_rows fact_transactions.
Proof.
  intros [reported_count Hcount].
  pose (w := Scenario.warehouse [Scenario.V1; Scenario.V2]).
  pose (e := AssertionError "Missing currency_key detected.").
  assert (H1 : reported_count e = 1%nat).
  { apply (Hcount [Scenario.t1; Scenario.t_usd] w
             (Scenario.fact_table [Scenario.t1; Scenario.t_usd] w) e);
      vm_compute; reflexivity. }
  assert (H2 : reported_count e = 2%nat).
  { apply (Hcount [Scenario.t1; Scenario.t_usd; Scenario.t_usd'] w
             (Scenario.fact_table
                [Scenario.t1; Scenario.t_usd; Scenario.t_usd'] w) e);
      vm_compute; reflexivity. }
  congruence.
Qed.

(** ** The Normalizer *)





(** ** The Key Resolver *)

Lemma not_NoDup_map {A B : Type} (f : A -> B) (l : list A) :
  ~ NoDup l -> ~ NoDup (map f l).
Proof. intros N Hmap. apply N. exact (NoDup_map_inv f l Hmap). Qed.

(** Duplicates in a static dimension make the Key Resolver raise, whatever
    rows it is given. *)
Lemma key_resolver_duplicates (transactions_df : list Resolved.row) (w : World) :
  ~ NoDup (map DimCurrency.transaction_currency (dim_currency w))
  \/ ~ NoDup (map DimCategory.category (dim_category w))
  \/ ~ NoDup (map DimDate.date (dim_date w)) ->
  snd (key_resolver transactions_df w)
  = inl (MergeError
           "Merge keys are not unique in right dataset; not a many-to-one merge")
  /\ files (fst (key_resolver transactions_df w)) = files w
  /\ log (fst (key_resolver transactions_df w)) = log w.
Proof.
  intro Hdup. rewrite key_resolver_run. cbv zeta.
  destruct (is_unique (map DimCurrency.transaction_currency (dim_currency w)))
    eqn:Ucur; [| simpl; auto].
  destruct (is_unique (map DimCategory.category (dim_category w)))
    eqn:Ucat; [| simpl; auto].
  destruct (is_unique
              (map DimDate.date
                 (dim_date
                    (assign_dim_date (map (DimDate.assign_date to_datetime)) w))))
    eqn:Udate; [| simpl; auto].
  exfalso. apply is_unique_NoDup in Ucur, Ucat, Udate.
  destruct Hdup as [N | [N | N]]; try contradiction.
  simpl in Udate. rewrite map_map in Udate. simpl in Udate.
  rewrite <- (map_map DimDate.date to_datetime) in Udate.
  exact (not_NoDup_map to_datetime _ N Udate).
Qed.

(** C6. When a static dimension (currency, category or date) holds a
    natural key twice, its validated join raises a MergeError whatever the
    transactions are, so does the Key Resolver, and the run ends in an
    exception with nothing written: no transaction row is duplicated into
    a fact table. *)
Theorem duplicate_natural_key_is_fatal {C : Type}
  (transform_transactions_fn : unit -> list Source.row)
  (transform_customers_fn : unit -> C) (output_path : string) (w : World) :
  ~ NoDup (map DimCurrency.transaction_currency (dim_currency w))
  \/ ~ NoDup (map DimCategory.category (dim_category w))
  \/ ~ NoDup (map DimDate.date (dim_date w)) ->
  (forall transactions_df : list Resolved.row,
      snd (key_resolver transactions_df w)
      = inl (MergeError
               "Merge keys are not unique in right dataset; not a many-to-one merge"))
  /\ (exists e,
         snd (build_fact_transactions
                transform_transactions_fn transform_customers_fn output_path w)
         = inl e
         /\ (e = MergeError
                   "Merge keys are not unique in right dataset; not a many-to-one merge"
             \/ e = AssertionError
                      "SCD2 resolution failed: duplicate customer versions detected."))
  /\ files (fst (build_fact_transactions
                   transform_transactions_fn transform_customers_fn
                   output_path w))
     = files w.
Proof.
  intro Hdup. split; [| split].
  - intro rows. apply key_resolver_duplicates. exact Hdup.
  - rewrite build_fact_transactions_run, final_fact_table_run,
      temporal_resolver_run.
    destruct (max_eq_1 _); [| eexists; split; [reflexivity | auto]].
    match goal with
    | |- context [key_resolver ?rows ?w1] =>
        destruct (key_resolver_duplicates rows w1 Hdup) as [E _];
        destruct (key_resolver rows w1) as [w2 [e | keyed]];
        simpl in E; [| discriminate]
    end.
    inversion E. eexists. split; [reflexivity | auto].
  - rewrite build_fact_transactions_run, final_fact_table_run,
      temporal_resolver_run.
    destruct (max_eq_1 _); [| reflexivity].
    match goal with
    | |- context [key_resolver ?rows ?w1] =>
        destruct (key_resolver_duplicates rows w1 Hdup) as [E [Hf _]];
        destruct (key_resolver rows w1) as [w2 [e | keyed]];
        simpl in E; [| discriminate]
    end.
    simpl in Hf |- *. exact Hf.
Qed.

Lemma duplicate_natural_key_is_fatal_witness :
  (forall transactions_df : list Resolved.row,
      snd (key_resolver transactions_df
             (assign_dim_date (fun _ => Scenario.dates ++ Scenario.dates)%list
                (Scenario.warehouse [Scenario.V1; Scenario.V2])))
      = inl (MergeError
               "Merge keys are not unique in right dataset; not a many-to-one merge"))
  /\ (exists e,
         snd (Scenario.run [Scenario.t1]
                (assign_dim_date (fun _ => Scenario.dates ++ Scenario.dates)%list
                   (Scenario.warehouse [Scenario.V1; Scenario.V2])))
         = inl e
         /\ (e = MergeError
                   "Merge keys are not unique in right dataset; not a many-to-one merge"
             \/ e = AssertionError
                      "SCD2 resolution failed: duplicate customer versions detected."))
  /\ files (fst (Scenario.run [Scenario.t1]
                   (assign_dim_date (fun _ => Scenario.dates ++ Scenario.dates)%list
                      (Scenario.warehouse [Scenario.V1; Scenario.V2]))))
     = files (assign_dim_date (fun _ => Scenario.dates ++ Scenario.dates)%list
                (Scenario.warehouse [Scenario.V1; Scenario.V2])).
Proof.
  apply (duplicate_natural_key_is_fatal
           (fun _ => [Scenario.t1]) (fun _ => tt) "fact_transactions.csv").
  right. right. intro N. simpl in N.
  apply NoDup_cons_iff in N. destruct N as [N _]. apply N.
  vm_compute. tauto.
Defined.

(** When the Key Resolver returns, each row it was given comes out once,
    in order, with the first row of each dimension that has its natural
    key, or with nulls. *)
Lemma key_resolver_lookup (transactions_df : list Resolved.row) (w w' : World)
  (keyed : list Keyed.row) :
  key_resolver transactions_df w = (w', inr keyed) ->
  w' = assign_dim_date (map (DimDate.assign_date to_datetime)) w
  /\ keyed =
     map (fun r =>
            (r,
             find (fun d => key_eqb (Resolved.transaction_currency r)
                              (DimCurrency.transaction_currency d))
               (dim_currency w),
             find (fun d => key_eqb (Resolved.category r)
                              (DimCategory.category d))
               (dim_category w),
             find (fun d => key_eqb (Resolved.transaction_date r)
                              (DimDate.date d))
               (dim_date w')))
       transactions_df.
Proof.
  rewrite key_resolver_run. cbv zeta.
  destruct (is_unique (map DimCurrency.transaction_currency (dim_currency w)))
    eqn:Ucur; [| discriminate].
  destruct (is_unique (map DimCategory.category (dim_category w)))
    eqn:Ucat; [| discriminate].
  destruct (is_unique
              (map DimDate.date
                 (dim_date
                    (assign_dim_date (map (DimDate.assign_date to_datetime)) w))))
    eqn:Udate; [| discriminate].
  apply is_unique_NoDup in Ucur, Ucat, Udate.
  intro E. inversion E; subst w' keyed; clear E.
  split; [reflexivity |].
  rewrite (merge_left_unique _ _ transactions_df _ Ucur).
  rewrite (merge_left_unique _ _ _ _ Ucat).
  rewrite (merge_left_unique _ _ _ _ Udate).
  rewrite !map_map. reflexivity.
Qed.

(** C7. When the three joins go through, no row is lost, added or moved:
    the rows that come out are the rows that went in, each extended with
    its three keys; and a row whose currency, category or date has no
    match in the dimension is kept, with a null for that key. *)
Theorem static_joins_keep_every_row (transactions_df : list Resolved.row)
  (w w' : World) (keyed : list Keyed.row) :
  key_resolver transactions_df w = (w', inr keyed) ->
  map Keyed.resolved keyed = transactions_df
  /\ List.length keyed = List.length transactions_df
  /\ forall r : Keyed.row,
       In r keyed ->
       ((forall d, In d (dim_currency w) ->
                   Resolved.transaction_currency (Keyed.resolved r)
                   <> DimCurrency.transaction_currency d) ->
        Keyed.currency_key r = None)
       /\ ((forall d, In d (dim_category w) ->
                      Resolved.category (Keyed.resolved r)
                      <> DimCategory.category d) ->
           Keyed.category_key r = None)
       /\ ((forall d, In d (dim_date w) ->
                      Resolved.transaction_date (Keyed.resolved r)
                      <> to_datetime (DimDate.date d)) ->
           Keyed.date_key r = None).
Proof.
  intro Hrun. apply key_resolver_lookup in Hrun. destruct Hrun as [Ew Ek].
  subst w' keyed. split; [| split].
  - rewrite map_map. unfold Keyed.resolved. simpl. apply map_id.
  - apply length_map.
  - intros r Hr. apply in_map_iff in Hr. destruct Hr as [x [Er Hx]]. subst r.
    unfold Keyed.resolved, Keyed.currency_key, Keyed.category_key,
      Keyed.date_key. cbn [fst snd].
    split; [| split]; intro Hno.
    + rewrite (find_same_key_None Resolved.transaction_currency
                 DimCurrency.transaction_currency x _ Hno). reflexivity.
    + rewrite (find_same_key_None Resolved.category
                 DimCategory.category x _ Hno). reflexivity.
    + rewrite (find_same_key_None Resolved.transaction_date DimDate.date x).
      * reflexivity.
      * intros d Hd. apply in_map_iff in Hd. destruct Hd as [d0 [Ed Hd0]].
        subst d. simpl. apply Hno. exact Hd0.
Qed.

Lemma static_joins_keep_every_row_witness :
  map Keyed.resolved
    (match snd (key_resolver
                  (map drop_scd2
                     (surviving [Scenario.V1; Scenario.V2]
                        (normalizer [Scenario.t1; Scenario.t_usd])))
                  (Scenario.warehouse [Scenario.V1; Scenario.V2])) with
     | inr keyed => keyed
     | inl _ => []
     end)
  = map drop_scd2
      (surviving [Scenario.V1; Scenario.V2]
         (normalizer [Scenario.t1; Scenario.t_usd]))
  /\ map Keyed.currency_key
       (match snd (key_resolver
                     (map drop_scd2
                        (surviving [Scenario.V1; Scenario.V2]
                           (normalizer [Scenario.t1; Scenario.t_usd])))
                     (Scenario.warehouse [Scenario.V1; Scenario.V2])) with
        | inr keyed => keyed
        | inl _ => []
        end)
     = [Some 1; None].
Proof.
  split; [| vm_compute; reflexivity].
  refine (proj1 (static_joins_keep_every_row
                   (map drop_scd2
                      (surviving [Scenario.V1; Scenario.V2]
                         (normalizer [Scenario.t1; Scenario.t_usd])))
                   (Scenario.warehouse [Scenario.V1; Scenario.V2])
                   (fst (key_resolver
                           (map drop_scd2
                              (surviving [Scenario.V1; Scenario.V2]
                                 (normalizer [Scenario.t1; Scenario.t_usd])))
                           (Scenario.warehouse [Scenario.V1; Scenario.V2])))
                   _ _)).
  vm_compute. reflexivity.
Defined.

(** ** The Publisher *)

(** C8. When the function returns, the file at output_path holds the fact
    table it returned under exactly the ten columns transaction_id,
    transaction_key, customer_key, currency_key, category_key, date_key,
    transaction_timestamp, transaction_amount_eur, current_exchange_rate,
    is_high_value_transaction, in that order, every record with one cell
    per column; customer_id, effective_from and effective_to are not among
    the columns. *)
Theorem published_columns {C : Type}
  (transform_transactions_fn : unit -> list Source.row)
  (transform_customers_fn : unit -> C) (output_path : string) (w : World)
  (fact_transactions : list Fact.row) :
  snd (build_fact_transactions
         transform_transactions_fn transform_customers_fn output_path w)
  = inr fact_transactions ->
  exists csv,
    files (fst (build_fact_transactions
                  transform_transactions_fn transform_customers_fn
                  output_path w)) output_path
    = Some csv
    /\ header csv
       = [ "transaction_id"; "transaction_key"; "customer_key";
           "currency_key"; "category_key"; "date_key";
           "transaction_timestamp"; "transaction_amount_eur";
           "current_exchange_rate"; "is_high_value_transaction" ]
    /\ records csv = map cells fact_transactions
    /\ Forall (fun record => List.length record = List.length (header csv))
         (records csv)
    /\ ~ In "customer_id" (header csv)
    /\ ~ In "effective_from" (header csv)
    /\ ~ In "effective_to" (header csv).
Proof.
  rewrite build_fact_transactions_run.
  destruct (final_fact_table transform_transactions_fn transform_customers_fn w)
    as [w1 [e | fact]]; [discriminate |].
  destruct (first_missing_key fact); [discriminate |].
  simpl. intro E. inversion E; subst fact; clear E.
  exists (to_csv fact_transactions). rewrite String.eqb_refl.
  split; [reflexivity |]. split; [reflexivity |]. split; [reflexivity |].
  split.
  - simpl. apply Forall_forall. intros record Hr.
    apply in_map_iff in Hr. destruct Hr as [r [Er _]]. subst record.
    reflexivity.
  - simpl. repeat split; intro Hin;
      repeat (destruct Hin as [Hin | Hin]; [discriminate Hin |]);
      exact Hin.
Qed.

Lemma published_columns_witness :
  exists csv,
    files (fst (Scenario.run [Scenario.t1; Scenario.t2; Scenario.t3]
                  (Scenario.warehouse [Scenario.V1; Scenario.V2])))
      "fact_transactions.csv"
    = Some csv
    /\ header csv
       = [ "transaction_id"; "transaction_key"; "customer_key";
           "currency_key"; "category_key"; "date_key";
           "transaction_timestamp"; "transaction_amount_eur";
           "current_exchange_rate"; "is_high_value_transaction" ]
    /\ List.length (records csv) = 3%nat.
Proof.
  destruct (published_columns
              (fun _ => [Scenario.t1; Scenario.t2; Scenario.t3])
              (fun _ => tt) "fact_transactions.csv"
              (Scenario.warehouse [Scenario.V1; Scenario.V2])
              (Scenario.fact_table [Scenario.t1; Scenario.t2; Scenario.t3]
                 (Scenario.warehouse [Scenario.V1; Scenario.V2])))
    as [csv [Hfile [Hheader [Hrecords _]]]].
  - vm_compute. reflexivity.
  - exists csv. split; [exact Hfile |]. split; [exact Hheader |].
    rewrite Hrecords. reflexivity.
Defined.

(** ** What a run does to the frames it is handed *)



(** ** The check on customer_key *)





(** ** Runs on the small warehouse *)

(** Both bounds of a validity interval are included, and the time of day of
    a transaction does not count: the last minute of 2024-06-30 is still
    in the first version, midnight of 2024-07-01 is in the second, and
    midnight of 2024-01-01 is in the first. *)
Example interval_bounds_are_included :
  Scenario.customer_keys
    (snd (Scenario.run
            [ Scenario.transaction 1 (Scenario.at_ 2024 6 30 23 59) 1%float "EUR";
              Scenario.transaction 2 (Scenario.at_ 2024 7 1 0 0) 1%float "EUR";
              Scenario.transaction 3 (Scenario.at_ 2024 1 1 0 0) 1%float "EUR" ]
            {| dim_customer := [Scenario.V1; Scenario.V2];
               dim_currency := [Scenario.EUR];
               dim_category := [Scenario.groceries];
               dim_date :=
                 [ Scenario.date_row 2024 6 30 20240630;
                   Scenario.date_row 2024 7 1 20240701;
                   Scenario.date_row 2024 1 1 20240101 ];
               files := Scenario.no_files;
               log := [] |}))
  = inr [(1, Some 100); (2, Some 101); (3, Some 100)].
Proof. vm_compute. reflexivity. Qed.

(** An open validity interval ends on 2099-12-31. *)
Example open_interval_is_current :
  Scenario.customer_keys
    (snd (Scenario.run [Scenario.t2; Scenario.t3]
            (Scenario.warehouse [Scenario.V1; Scenario.V_current])))
  = inr [(2, Some 101); (3, Some 101)]
  /\ Timestamp 2099 12 31 = stamp (4102358400 * 1000000000).
Proof. vm_compute. split; reflexivity. Qed.

(** Two rows of the currency dimension for one currency code stop the run
    at the currency join. *)
Example duplicate_currency_stops_the_run :
  snd (Scenario.run [Scenario.t1]
         {| dim_customer := [Scenario.V1; Scenario.V2];
            dim_currency := [Scenario.EUR; Scenario.EUR'];
            dim_category := [Scenario.groceries];
            dim_date := Scenario.dates;
            files := Scenario.no_files;
            log := [] |})
  = inl (MergeError
           "Merge keys are not unique in right dataset; not a many-to-one merge").
Proof. vm_compute. reflexivity. Qed.

(** Without any surviving row the assertion of the Temporal Resolver
    fails: on no transaction at all, and on transactions none of which has
    a valid version. *)
Example nothing_survives_aborts :
  snd (Scenario.run [] (Scenario.warehouse [Scenario.V1; Scenario.V2]))
  = inl (AssertionError
           "SCD2 resolution failed: duplicate customer versions detected.")
  /\ snd (Scenario.run [Scenario.t_gap]
            (Scenario.warehouse [Scenario.V1; Scenario.V2]))
     = inl (AssertionError
              "SCD2 resolution failed: duplicate customer versions detected.").
Proof. vm_compute. split; reflexivity. Qed.

(** * Further properties of the function *)

(** ** The outcome of a run, in one equation *)

Lemma build_fact_transactions_outcome {C : Type}
  (transform_transactions_fn : unit -> list Source.row)
  (transform_customers_fn : unit -> C) (output_path : string) (w : World) :
  build_fact_transactions
    transform_transactions_fn transform_customers_fn output_path w =
  let merge_error :=
    MergeError
      "Merge keys are not unique in right dataset; not a many-to-one merge" in
  let w1 := assign_dim_customer (map coerce_validity) w in
  let w2 := assign_dim_date (map (DimDate.assign_date to_datetime)) w1 in
  let rows :=
    surviving (dim_customer w) (normalizer (transform_transactions_fn tt)) in
  let fact_transactions :=
    map project (map (resolve_keys w) (map drop_scd2 rows)) in
  if max_eq_1 (map snd (groupby_size Versioned.transaction_id rows)) then
    if is_unique (map DimCurrency.transaction_currency (dim_currency w)) then
      if is_unique (map DimCategory.category (dim_category w)) then
        if is_unique
             (map DimDate.date
                (map (DimDate.assign_date to_datetime) (dim_date w)))
        then
          match first_missing_key fact_transactions with
          | Some msg => (w2, inl (AssertionError msg))
          | None =>
              (put_log
                 {| shape := (List.length fact_transactions,
                              List.length fact_columns);
                    saved_to := output_path |}
                 (put_file output_path (to_csv fact_transactions) w2),
               inr fact_transactions)
          end
        else (w2, inl merge_error)
      else (w1, inl merge_error)
    else (w1, inl merge_error)
  else
    (w1,
     inl (AssertionError
            "SCD2 resolution failed: duplicate customer versions detected.")).
Proof.
  rewrite build_fact_transactions_run, final_fact_table_run,
    temporal_resolver_run.
  cbv zeta. destruct (max_eq_1 _); [| reflexivity].
  rewrite key_resolver_run. cbv zeta.
  cbn [dim_currency dim_category dim_date assign_dim_customer assign_dim_date].
  destruct (is_unique (map DimCurrency.transaction_currency (dim_currency w)))
    eqn:Ucur; [| reflexivity].
  destruct (is_unique (map DimCategory.category (dim_category w)))
    eqn:Ucat; [| reflexivity].
  destruct (is_unique
              (map DimDate.date
                 (map (DimDate.assign_date to_datetime) (dim_date w))))
    eqn:Udate; [| reflexivity].
  apply is_unique_NoDup in Ucur, Ucat, Udate.
  rewrite (merge_left_unique _ _ _ _ Ucur).
  rewrite (merge_left_unique _ _ _ _ Ucat).
  rewrite (merge_left_unique _ _ _ _ Udate).
  rewrite !map_map. reflexivity.
Qed.

(** ** When the Temporal Resolver returns *)

Lemma flat_map_after_map {A B D : Type} (f : B -> list D) (g : A -> B)
  (l : list A) :
  flat_map f (map g l) = flat_map (fun a => f (g a)) l.
Proof.
  induction l as [| a l IH]; simpl; [reflexivity |].
  rewrite IH. reflexivity.
Qed.

(** The surviving rows, transaction by transaction of the batch. *)
Lemma surviving_source (dim_customer : list DimCustomer.row)
  (transactions : list Source.row) :
  surviving dim_customer (normalizer transactions) =
  flat_map
    (fun t =>
       map (fun v =>
              (Txn.assign_transaction_date to_datetime (normalize t), Some v))
         (valid_versions dim_customer t))
    transactions.
Proof.
  rewrite surviving_valid. unfold normalizer.
  rewrite map_map, flat_map_after_map. reflexivity.
Qed.




(** ** Runs that abort *)



(** ** Runs that complete *)


Lemma not_null_Some {A : Type} (c : option A) :
  isnull c = false -> exists a, c = Some a.
Proof. destruct c as [a |]; [eauto | discriminate]. Qed.

(** What a completed run went through: the assertion held of the
    surviving rows, the validated joins were lookups, no key was missing. *)
Lemma completed_run_inv {C : Type}
  (transform_transactions_fn : unit -> list Source.row)
  (transform_customers_fn : unit -> C) (output_path : string) (w : World)
  (fact_transactions : list Fact.row) :
  snd (build_fact_transactions
         transform_transactions_fn transform_customers_fn output_path w)
  = inr fact_transactions ->
  max_eq_1
    (map snd
       (groupby_size Versioned.transaction_id
          (surviving (dim_customer w)
             (normalizer (transform_transactions_fn tt))))) = true
  /\ fact_transactions
     = map project
         (map (resolve_keys w)
            (map drop_scd2
               (surviving (dim_customer w)
                  (normalizer (transform_transactions_fn tt)))))
  /\ null_key_rows fact_transactions = 0%nat
  /\ fst (build_fact_transactions
            transform_transactions_fn transform_customers_fn output_path w)
     = put_log
         {| shape := (List.length fact_transactions, List.length fact_columns);
            saved_to := output_path |}
         (put_file output_path (to_csv fact_transactions)
            (assign_dim_date (map (DimDate.assign_date to_datetime))
               (assign_dim_customer (map coerce_validity) w))).
Proof.
  rewrite build_fact_transactions_outcome. cbv zeta.
  destruct (max_eq_1 _); [| discriminate].
  destruct (is_unique (map DimCurrency.transaction_currency (dim_currency w)));
    [| discriminate].
  destruct (is_unique (map DimCategory.category (dim_category w)));
    [| discriminate].
  destruct (is_unique
              (map DimDate.date
                 (map (DimDate.assign_date to_datetime) (dim_date w))));
    [| discriminate].
  destruct (first_missing_key _) eqn:Hmiss; [discriminate |].
  cbn [fst snd]. intro E. injection E as Efact. subst fact_transactions.
  apply first_missing_key_None in Hmiss.
  repeat split; try reflexivity. exact Hmiss.
Qed.



(** X5. A run that completes replaces whatever the file at output_path
    held by the fact table it returns, leaves every other file as it was,
    and appends one record to the log: the shape of the table, its number
    of rows by ten columns, and the path. *)
Theorem completed_run_writes_once {C : Type}
  (transform_transactions_fn : unit -> list Source.row)
  (transform_customers_fn : unit -> C) (output_path : string) (w : World)
  (fact_transactions : list Fact.row) :
  snd (build_fact_transactions
         transform_transactions_fn transform_customers_fn output_path w)
  = inr fact_transactions ->
  files (fst (build_fact_transactions
                transform_transactions_fn transform_customers_fn
                output_path w)) output_path
  = Some (to_csv fact_transactions)
  /\ (forall path,
         path <> output_path ->
         files (fst (build_fact_transactions
                       transform_transactions_fn transform_customers_fn
                       output_path w)) path
         = files w path)
  /\ log (fst (build_fact_transactions
                 transform_transactions_fn transform_customers_fn
                 output_path w))
     = (log w
        ++ [ {| shape := (List.length fact_transactions, 10%nat);
                saved_to := output_path |} ])%list.
Proof.
  intro Hrun.
  destruct (completed_run_inv _ _ _ _ _ Hrun) as [_ [_ [_ Ew]]].
  rewrite Ew. cbn [files log put_log put_file assign_dim_date
                     assign_dim_customer].
  split; [| split].
  - rewrite String.eqb_refl. reflexivity.
  - intros path Hneq. apply String.eqb_neq in Hneq. rewrite Hneq. reflexivity.
  - reflexivity.
Qed.

Lemma completed_run_writes_once_witness :
  files (fst (Scenario.run [Scenario.t1; Scenario.t2; Scenario.t3]
                (Scenario.warehouse [Scenario.V1; Scenario.V2])))
    "fact_transactions.csv"
  = Some (to_csv
            (Scenario.fact_table [Scenario.t1; Scenario.t2; Scenario.t3]
               (Scenario.warehouse [Scenario.V1; Scenario.V2])))
  /\ log (fst (Scenario.run [Scenario.t1; Scenario.t2; Scenario.t3]
                 (Scenario.warehouse [Scenario.V1; Scenario.V2])))
     = [ {| shape := (3%nat, 10%nat); saved_to := "fact_transactions.csv" |} ].
Proof.
  destruct (completed_run_writes_once
              (fun _ => [Scenario.t1; Scenario.t2; Scenario.t3])
              (fun _ => tt) "fact_transactions.csv"
              (Scenario.warehouse [Scenario.V1; Scenario.V2])
              (Scenario.fact_table [Scenario.t1; Scenario.t2; Scenario.t3]
                 (Scenario.warehouse [Scenario.V1; Scenario.V2])))
    as [Hfile [_ Hlog]].
  - vm_compute. reflexivity.
  - split; [exact Hfile | exact Hlog].
Defined.

(** ** One row per covered transaction *)

Section Counting.
Context {A B K : Type} `{Key K}.
Variable key : A -> K.
Variable f : A -> list B.

Lemma count_key_app (k : K) (l l' : list K) :
  count_key k (l ++ l') = (count_key k l + count_key k l')%nat.
Proof. unfold count_key. rewrite filter_app, length_app. reflexivity. Qed.

Lemma count_key_own (k : K) (l : list B) :
  count_key k (map (fun _ => k) l) = List.length l.
Proof.
  unfold count_key. induction l as [| b l IH]; simpl; [reflexivity |].
  rewrite key_eqb_refl. simpl. rewrite IH. reflexivity.
Qed.

(** The rows an element gives rise to are counted under its key. *)
Lemma count_key_flat_map (a : A) (l : list A) :
  In a l ->
  (List.length (f a)
   <= count_key (key a)
        (flat_map (fun a' => map (fun _ => key a') (f a')) l))%nat.
Proof.
  induction l as [| a' l IH]; simpl; [intros [] |].
  rewrite count_key_app. intros [E | Hin].
  - subst a'. rewrite count_key_own. lia.
  - specialize (IH Hin). lia.
Qed.

(** When no element gives rise to more than one row, the keys of the rows
    are the keys of the elements that give rise to one, in order. *)
Lemma flat_map_at_most_one (l : list A) :
  (forall a, In a l -> (List.length (f a) <= 1)%nat) ->
  flat_map (fun a => map (fun _ => key a) (f a)) l =
  map key
    (filter (fun a => match f a with [] => false | _ :: _ => true end) l).
Proof.
  induction l as [| a l IH]; simpl; [reflexivity |].
  intro Hle. rewrite IH by (intros a' Ha'; apply Hle; right; exact Ha').
  pose proof (Hle a (or_introl eq_refl)) as Ha.
  destruct (f a) as [| b [| b' bs]]; simpl in Ha |- *;
    [reflexivity | reflexivity | lia].
Qed.

Lemma count_key_at_most_one_NoDup (l : list K) :
  (forall k, (count_key k l <= 1)%nat) <-> NoDup l.
Proof.
  induction l as [| k l IH].
  - split; [constructor | intros _ k; unfold count_key; simpl; lia].
  - split.
    + intro Hle. constructor.
      * intro Hin. apply count_key_pos in Hin.
        specialize (Hle k). unfold count_key in Hle, Hin. simpl in Hle.
        rewrite key_eqb_refl in Hle. simpl in Hle. lia.
      * apply IH. intro k'. specialize (Hle k').
        unfold count_key in Hle |- *. simpl in Hle.
        destruct (key_eqb k' k); simpl in Hle; lia.
    + intros N k'. apply NoDup_cons_iff in N. destruct N as [Hk N].
      pose proof (proj2 IH N k') as Hle.
      unfold count_key in Hle |- *. simpl.
      destruct (key_eqb_spec k' k) as [E | E]; simpl; [| exact Hle].
      subst k'.
      destruct (List.length (filter (key_eqb k) l)) eqn:L; [lia |].
      exfalso. apply Hk. apply count_key_pos. unfold count_key. lia.
Qed.

End Counting.

(** The transaction_ids of the surviving rows: each transaction's, once
    per version valid at its date. *)
Lemma surviving_ids (dim_customer : list DimCustomer.row)
  (transactions : list Source.row) :
  map Versioned.transaction_id
    (surviving dim_customer (normalizer transactions)) =
  flat_map
    (fun t => map (fun _ => Source.transaction_id t)
                (valid_versions dim_customer t))
    transactions.
Proof.
  rewrite surviving_source.
  induction transactions as [| t ts IH]; [reflexivity |].
  cbn [flat_map]. rewrite map_app.
  f_equal; [rewrite map_map; reflexivity | exact IH].
Qed.

(** The transaction_ids of the fact table are those of the surviving
    rows. *)
Lemma fact_ids (w : World) (rows : list Versioned.row) :
  map Fact.transaction_id
    (map project (map (resolve_keys w) (map drop_scd2 rows)))
  = map Versioned.transaction_id rows.
Proof. rewrite !map_map. reflexivity. Qed.

(** X6. The fact table the function returns has one row for each
    transaction of the batch that has a valid version of its customer, in
    the order of the batch, and none for the others; no transaction_id
    occurs in it twice. *)
Theorem fact_rows_are_the_covered_transactions {C : Type}
  (transform_transactions_fn : unit -> list Source.row)
  (transform_customers_fn : unit -> C) (output_path : string) (w : World)
  (fact_transactions : list Fact.row) :
  snd (build_fact_transactions
         transform_transactions_fn transform_customers_fn output_path w)
  = inr fact_transactions ->
  map Fact.transaction_id fact_transactions
  = map Source.transaction_id
      (filter (covered (dim_customer w)) (transform_transactions_fn tt))
  /\ NoDup (map Fact.transaction_id fact_transactions)
  /\ (List.length fact_transactions
      <= List.length (transform_transactions_fn tt))%nat.
Proof.
  intro Hrun.
  destruct (completed_run_inv _ _ _ _ _ Hrun) as [Hmax [Efact _]].
  pose proof (max_eq_1_at_most_one _ _ Hmax) as Hle.
  assert (Eids : map Fact.transaction_id fact_transactions
                 = map Versioned.transaction_id
                     (surviving (dim_customer w)
                        (normalizer (transform_transactions_fn tt)))).
  { rewrite Efact. apply fact_ids. }
  assert (Ecov : map Fact.transaction_id fact_transactions
                 = map Source.transaction_id
                     (filter (covered (dim_customer w))
                        (transform_transactions_fn tt))).
  { rewrite Eids, surviving_ids.
    apply (flat_map_at_most_one Source.transaction_id
             (valid_versions (dim_customer w))).
    intros t Ht.
    pose proof (count_key_flat_map Source.transaction_id
                  (valid_versions (dim_customer w)) t _ Ht) as Hcount.
    rewrite <- surviving_ids in Hcount.
    specialize (Hle (Source.transaction_id t)). lia. }
  split; [exact Ecov |]. split.
  - rewrite Eids. apply count_key_at_most_one_NoDup. exact Hle.
  - rewrite <- (length_map Fact.transaction_id), Ecov, length_map.
    apply filter_length_le.
Qed.

Lemma fact_rows_are_the_covered_transactions_witness :
  map Fact.transaction_id
    (Scenario.fact_table [Scenario.t1; Scenario.t_gap; Scenario.t3]
       (Scenario.warehouse [Scenario.V1; Scenario.V2]))
  = map Source.transaction_id
      (filter (covered [Scenario.V1; Scenario.V2])
         [Scenario.t1; Scenario.t_gap; Scenario.t3])
  /\ NoDup
       (map Fact.transaction_id
          (Scenario.fact_table [Scenario.t1; Scenario.t_gap; Scenario.t3]
             (Scenario.warehouse [Scenario.V1; Scenario.V2])))
  /\ (List.length
        (Scenario.fact_table [Scenario.t1; Scenario.t_gap; Scenario.t3]
           (Scenario.warehouse [Scenario.V1; Scenario.V2]))
      <= 3)%nat.
Proof.
  apply (fact_rows_are_the_covered_transactions
           (fun _ => [Scenario.t1; Scenario.t_gap; Scenario.t3])
           (fun _ => tt) "fact_transactions.csv"
           (Scenario.warehouse [Scenario.V1; Scenario.V2])).
  vm_compute. reflexivity.
Defined.

(** ** A well-formed batch on a well-formed warehouse *)







(** ** Running the function again *)

Lemma to_datetime_idem (c : DateCell) : to_datetime (to_datetime c) = to_datetime c.
Proof. destruct c; reflexivity. Qed.

Lemma coerce_validity_idem (v : DimCustomer.row) :
  coerce_validity (coerce_validity v) = coerce_validity v.
Proof.
  destruct v as [id key from to].
  destruct from, to; reflexivity.
Qed.

Lemma coerce_validity_map_idem (dim_customer : list DimCustomer.row) :
  map coerce_validity (map coerce_validity dim_customer)
  = map coerce_validity dim_customer.
Proof.
  rewrite map_map. apply map_ext. exact coerce_validity_idem.
Qed.

Lemma assign_date_map_idem (dates : list DimDate.row) :
  map (DimDate.assign_date to_datetime)
    (map (DimDate.assign_date to_datetime) dates)
  = map (DimDate.assign_date to_datetime) dates.
Proof.
  rewrite map_map. apply map_ext. intros [d k].
  unfold DimDate.assign_date. simpl. rewrite to_datetime_idem. reflexivity.
Qed.

Lemma surviving_coerced (dim_customer : list DimCustomer.row)
  (transactions_df : list Txn.row) :
  surviving (map coerce_validity dim_customer) transactions_df
  = surviving dim_customer transactions_df.
Proof. unfold surviving. rewrite coerce_validity_map_idem. reflexivity. Qed.

Lemma resolve_keys_ext (w w' : World) :
  dim_currency w' = dim_currency w ->
  dim_category w' = dim_category w ->
  map (DimDate.assign_date to_datetime) (dim_date w')
  = map (DimDate.assign_date to_datetime) (dim_date w) ->
  resolve_keys w' = resolve_keys w.
Proof.
  intros E1 E2 E3. unfold resolve_keys. rewrite E1, E2, E3. reflexivity.
Qed.

(** X8. Running the function a second time, on the frames as the first
    run left them, gives the outcome of the first run again: the same fact
    table or the same exception. The second run changes no dimension frame
    and no file any further. *)
Theorem second_run_repeats_the_first {C : Type}
  (transform_transactions_fn : unit -> list Source.row)
  (transform_customers_fn : unit -> C) (output_path : string) (w : World) :
  snd (build_fact_transactions
         transform_transactions_fn transform_customers_fn output_path
         (fst (build_fact_transactions
                 transform_transactions_fn transform_customers_fn
                 output_path w)))
  = snd (build_fact_transactions
           transform_transactions_fn transform_customers_fn output_path w)
  /\ dim_customer
       (fst (build_fact_transactions
               transform_transactions_fn transform_customers_fn output_path
               (fst (build_fact_transactions
                       transform_transactions_fn transform_customers_fn
                       output_path w))))
     = dim_customer
         (fst (build_fact_transactions
                 transform_transactions_fn transform_customers_fn
                 output_path w))
  /\ dim_currency
       (fst (build_fact_transactions
               transform_transactions_fn transform_customers_fn output_path
               (fst (build_fact_transactions
                       transform_transactions_fn transform_customers_fn
                       output_path w))))
     = dim_currency w
  /\ dim_category
       (fst (build_fact_transactions
               transform_transactions_fn transform_customers_fn output_path
               (fst (build_fact_transactions
                       transform_transactions_fn transform_customers_fn
                       output_path w))))
     = dim_category w
  /\ dim_date
       (fst (build_fact_transactions
               transform_transactions_fn transform_customers_fn output_path
               (fst (build_fact_transactions
                       transform_transactions_fn transform_customers_fn
                       output_path w))))
     = dim_date
         (fst (build_fact_transactions
                 transform_transactions_fn transform_customers_fn
                 output_path w))
  /\ forall path,
       files
         (fst (build_fact_transactions
                 transform_transactions_fn transform_customers_fn output_path
                 (fst (build_fact_transactions
                         transform_transactions_fn transform_customers_fn
                         output_path w)))) path
       = files
           (fst (build_fact_transactions
                   transform_transactions_fn transform_customers_fn
                   output_path w)) path.
Proof.
  rewrite (build_fact_transactions_outcome
             transform_transactions_fn transform_customers_fn output_path w).
  cbv zeta.
  destruct (max_eq_1 _) eqn:Hmax;
    [ destruct (is_unique
                  (map DimCurrency.transaction_currency (dim_currency w)))
        eqn:Ucur;
      [ destruct (is_unique (map DimCategory.category (dim_category w)))
          eqn:Ucat;
        [ destruct (is_unique
                      (map DimDate.date
                         (map (DimDate.assign_date to_datetime) (dim_date w))))
            eqn:Udate;
          [ destruct (first_missing_key _) as [msg |] eqn:Hmiss | ] | ] | ] | ];
    cbn [fst snd];
    rewrite build_fact_transactions_outcome; cbv zeta;
    cbn [dim_customer dim_currency dim_category dim_date files
           assign_dim_customer assign_dim_date put_log put_file];
    rewrite surviving_coerced, ?coerce_validity_map_idem,
      ?assign_date_map_idem, Hmax;
    try rewrite Ucur; try rewrite Ucat; try rewrite Udate.
  all: try (rewrite (resolve_keys_ext w);
            [ rewrite Hmiss
            | reflexivity | reflexivity
            | cbn [dim_date assign_dim_customer assign_dim_date put_log
                     put_file];
              rewrite ?assign_date_map_idem; reflexivity ]).
  all: cbn [fst snd dim_customer dim_currency dim_category dim_date files
              assign_dim_customer assign_dim_date put_log put_file];
    rewrite ?coerce_validity_map_idem, ?assign_date_map_idem;
    repeat split; try reflexivity.
  intro path. destruct (String.eqb path output_path); reflexivity.
Qed.

(** ** The calendar day of a transaction *)

(** X9. The date a transaction is resolved on is the midnight that opens
    the day of its timestamp: a multiple of a day, at most the timestamp
    and less than a day before it (also for timestamps before 1970). So
    the time of day is ignored: two transactions of one customer stamped
    on the same day have the same valid versions. *)
Theorem time_of_day_is_ignored (dim_customer : list DimCustomer.row)
  (t t' : Source.row) (ns ns' : Z) :
  Source.timestamp t = stamp ns ->
  Source.timestamp t' = stamp ns' ->
  Source.customer_id t = Source.customer_id t' ->
  ns / ns_per_day = ns' / ns_per_day ->
  (exists midnight,
      Txn.transaction_date
        (Txn.assign_transaction_date to_datetime (normalize t))
      = stamp midnight
      /\ midnight mod ns_per_day = 0
      /\ midnight <= ns < midnight + ns_per_day)
  /\ valid_versions dim_customer t = valid_versions dim_customer t'.
Proof.
  intros Et Et' Ecust Eday. split.
  - exists (ns / ns_per_day * ns_per_day). simpl. rewrite Et. simpl.
    split; [reflexivity |].
    assert (Hpos : 0 < ns_per_day) by reflexivity.
    split; [apply Z.mod_mul; lia |].
    pose proof (Z.div_mod ns ns_per_day) as Hdiv.
    pose proof (Z.mod_pos_bound ns ns_per_day Hpos) as Hmod.
    lia.
  - unfold valid_versions. apply filter_ext. intro v.
    unfold valid_at, in_validity, Versioned.transaction_date,
      Versioned.effective_from, Versioned.effective_to.
    cbn [fst snd Txn.customer_id Txn.transaction_date
           Txn.assign_transaction_date normalize].
    rewrite Et, Et', Ecust. cbn [to_datetime dt_date]. rewrite Eday.
    reflexivity.
Qed.

Lemma time_of_day_is_ignored_witness :
  (exists midnight,
      Txn.transaction_date
        (Txn.assign_transaction_date to_datetime (normalize Scenario.t1))
      = stamp midnight
      /\ midnight mod ns_per_day = 0
      /\ midnight
         <= days_from_civil 2024 6 15 * ns_per_day
            + (10 * 60 + 30) * 60 * 1000000000
         < midnight + ns_per_day)
  /\ valid_versions [Scenario.V1; Scenario.V2] Scenario.t1
     = valid_versions [Scenario.V1; Scenario.V2] Scenario.t_usd.
Proof.
  apply (time_of_day_is_ignored [Scenario.V1; Scenario.V2]
           Scenario.t1 Scenario.t_usd
           (days_from_civil 2024 6 15 * ns_per_day
            + (10 * 60 + 30) * 60 * 1000000000)
           (days_from_civil 2024 6 15 * ns_per_day
            + (8 * 60 + 0) * 60 * 1000000000));
    reflexivity.
Defined.

(** ** Transaction_ids that repeat *)

(** X10. The assertion of the Temporal Resolver also fires when the batch
    holds the same transaction_id twice: if two transactions of the batch
    share their transaction_id and each has a valid version of its
    customer, the run aborts with the message about duplicate customer
    versions, whatever the customer dimension is, and writes nothing. *)
Theorem repeated_transaction_id_aborts {C : Type}
  (transform_transactions_fn : unit -> list Source.row)
  (transform_customers_fn : unit -> C) (output_path : string) (w : World)
  (before between after : list Source.row) (t t' : Source.row) :
  transform_transactions_fn tt = (before ++ t :: between ++ t' :: after)%list ->
  Source.transaction_id t = Source.transaction_id t' ->
  covered (dim_customer w) t = true ->
  covered (dim_customer w) t' = true ->
  snd (build_fact_transactions
         transform_transactions_fn transform_customers_fn output_path w)
  = inl (AssertionError
           "SCD2 resolution failed: duplicate customer versions detected.")
  /\ files (fst (build_fact_transactions
                   transform_transactions_fn transform_customers_fn
                   output_path w))
     = files w.
Proof.
  intros Ebatch Eid Ht Ht'.
  assert (Hcount :
    (1 < survivors (Source.transaction_id t)
           (surviving (dim_customer w)
              (normalizer (transform_transactions_fn tt))))%nat).
  { unfold survivors. rewrite surviving_ids, Ebatch.
    rewrite flat_map_app, count_key_app. cbn [flat_map].
    rewrite count_key_app, count_key_own, flat_map_app, count_key_app.
    cbn [flat_map]. rewrite count_key_app, <- Eid, count_key_own.
    unfold covered in Ht, Ht'.
    destruct (valid_versions (dim_customer w) t); [discriminate |].
    destruct (valid_versions (dim_customer w) t'); [discriminate |].
    simpl. lia. }
  rewrite build_fact_transactions_outcome. cbv zeta.
  rewrite (max_eq_1_overlap Versioned.transaction_id _ _ Hcount).
  split; reflexivity.
Qed.

Lemma repeated_transaction_id_aborts_witness :
  snd (Scenario.run [Scenario.t1; Scenario.t1]
         (Scenario.warehouse [Scenario.V1; Scenario.V2]))
  = inl (AssertionError
           "SCD2 resolution failed: duplicate customer versions detected.")
  /\ files (fst (Scenario.run [Scenario.t1; Scenario.t1]
                   (Scenario.warehouse [Scenario.V1; Scenario.V2])))
     = files (Scenario.warehouse [Scenario.V1; Scenario.V2]).
Proof.
  apply (repeated_transaction_id_aborts
           (fun _ => [Scenario.t1; Scenario.t1]) (fun _ => tt)
           "fact_transactions.csv"
           (Scenario.warehouse [Scenario.V1; Scenario.V2])
           [] [] [] Scenario.t1 Scenario.t1);
    reflexivity.
Defined.

(** ** Transactions without a valid version *)







(** ** When the Key Resolver returns *)

